(** * enhance-article.py : the section-metadata merge, embedded and verified

    The script loads [article.json], wraps the article in a fixed envelope
    (version, document metadata, settings), merges the entry of the static
    table [SECTION_METADATA] into every section whose id is a key of the
    table, and dumps the result over the same file.

    The embedding is shallow.  JSON values are an inductive type, a Python
    [dict] is an association list in insertion order, and an uncaught
    exception is the [Raise] branch of a small error monad. *)

From Stdlib Require Import ZArith String List PrimFloat.
From Stdlib Require Import DecimalString.
From stdpp Require Import base list strings gmap.

Set Warnings "-register-all".
Open Scope string_scope.

(** ** Values produced by [json.load] *)

(** Python's [int] is unbounded ([Z]); a [float] is a binary64 value; a
    [str] is kept as the byte string of its UTF-8 encoding. *)
Inductive json : Type :=
  | JNull
  | JBool (b : bool)
  | JInt (n : Z)
  | JFloat (x : float)
  | JStr (s : string)
  | JList (l : list json)
  | JDict (d : list (string * json)).

(** A Python dict whose keys are strings, in insertion order. *)
Abbreviation dict := (list (string * json)).

(** ** Uncaught exceptions *)

(** The script has no [try]; whatever is raised ends the run.  [KeyError]
    keeps the missing key.  [TypeError] and [ValueError] are not told apart:
    nothing in the script depends on which of the two was raised.
    [UnicodeEncodeError], the [ValueError] of a text stream that cannot
    encode what it is given, is kept apart from them: the transform never
    raises it, a write to the file or to standard output can. *)
Inductive exn : Type :=
  | KeyError (k : string)
  | TypeOrValueError
  | OSError
  | UnicodeEncodeError.

Inductive result (A : Type) : Type :=
  | Ok (a : A)
  | Raise (e : exn).

Arguments Ok {A} a.
Arguments Raise {A} e.

Definition bind {A B : Type} (r : result A) (f : A -> result B) : result B :=
  match r with
  | Ok a => f a
  | Raise e => Raise e
  end.

Notation "'let*' x ':=' r 'in' k" := (bind r (fun x => k))
  (at level 10, x name, r at level 100, k at level 200).

Definition is_ok {A : Type} (r : result A) : bool :=
  match r with Ok _ => true | Raise _ => false end.

(** ** Dict operations *)

(** [d.get(k)]: the value bound to [k], if any. *)
Fixpoint dict_get (k : string) (d : dict) : option json :=
  match d with
  | [] => None
  | (k', v) :: rest => if String.eqb k k' then Some v else dict_get k rest
  end.

(** [k in d] *)
Definition dict_mem (k : string) (d : dict) : bool :=
  match dict_get k d with Some _ => true | None => false end.

(** [d[k]]: raises [KeyError] on a missing key. *)
Definition dict_getitem (k : string) (d : dict) : result json :=
  match dict_get k d with
  | Some v => Ok v
  | None => Raise (KeyError k)
  end.

(** [d[k] = v]: an existing key keeps its position and takes the new value,
    a new key goes to the end. *)
Fixpoint dict_set (k : string) (v : json) (d : dict) : dict :=
  match d with
  | [] => [(k, v)]
  | (k', v') :: rest =>
      if String.eqb k k' then (k', v) :: rest
      else (k', v') :: dict_set k v rest
  end.

(** ** Operations on arbitrary values *)

(** [o[k]] for a string subscript [k].  Lists and strings want integer
    indices, the other values are not subscriptable: [TypeError]. *)
Definition py_getitem (o : json) (k : string) : result json :=
  match o with
  | JDict d => dict_getitem k d
  | _ => Raise TypeOrValueError
  end.

(** [o[k] = v] for a string subscript [k].  Only a dict accepts it. *)
Definition py_setitem (o : json) (k : string) (v : json) : result json :=
  match o with
  | JDict d => Ok (JDict (dict_set k v d))
  | _ => Raise TypeOrValueError
  end.

(** [for x in o]: the elements a [for] loop visits.  A dict yields its keys,
    a string its characters (one element per byte here; every element of a
    non-empty string is a non-empty string either way), a list its items;
    the other values are not iterable. *)
Definition py_iter (o : json) : result (list json) :=
  match o with
  | JList l => Ok l
  | JDict d => Ok (map (fun kv => JStr (fst kv)) d)
  | JStr s => Ok (map (fun c => JStr (String c EmptyString)) (list_ascii_of_string s))
  | _ => Raise TypeOrValueError
  end.

(** [dict(section)] followed by [section["id"]] (lines 234-235).  On a dict
    the copy has the same items and the subscript is a dict lookup.  On any
    other value the pair of statements raises: [dict] rejects [None], numbers
    and booleans ([TypeError]) and non-empty strings ([ValueError]); where
    [dict] succeeds (the empty string, a list of pairs) the subscript
    [section["id"]] on that string or list raises [TypeError]. *)
Definition copy_and_id (section : json) : result (dict * json) :=
  match section with
  | JDict d => let* section_id := dict_getitem "id" d in Ok (d, section_id)
  | _ => Raise TypeOrValueError
  end.

(** [section_id in table] and, where it holds, [table[section_id]], for a
    dict [table] with string keys.  The operand is hashed first: a list or a
    dict is unhashable ([TypeError]).  A value that is not a string equals no
    key. *)
Definition py_in_table {V : Type} (section_id : json) (table : list (string * V))
  : result (option V) :=
  match section_id with
  | JStr s =>
      Ok (snd <$> find (fun kv => String.eqb s (fst kv)) table)
  | JList _ | JDict _ => Raise TypeOrValueError
  | _ => Ok None
  end.

(** ** The static table (lines 13-198) *)

(** Every value of the table is itself a dict literal, so an entry is kept
    as a [dict]. *)
Definition SECTION_METADATA : list (string * dict) :=
  [ ("visual-abstract",
     [ ("estimatedReadingTime", JInt 5);
       ("tags",
         JList [JStr "overview"; JStr "introduction"; JStr "conceptual"]);
       ("type", JStr "visual-abstract") ]);
    ("executive-summaries",
     [ ("estimatedReadingTime", JInt 10);
       ("tags", JList [JStr "summary"; JStr "overview"; JStr "accessible"]) ]);
    ("reading-guide",
     [ ("estimatedReadingTime", JInt 5);
       ("tags", JList [JStr "navigation"; JStr "guide"; JStr "overview"]) ]);
    ("glossary",
     [ ("estimatedReadingTime", JInt 15);
       ("tags",
         JList [JStr "reference"; JStr "definitions"; JStr "terminology"]);
       ("type", JStr "glossary") ]);
    ("chapter-1",
     [ ("chapterNumber", JInt 1);
       ("partNumber", JInt 1);
       ("estimatedReadingTime", JInt 25);
       ("tags", JList
           [ JStr "foundations";
             JStr "philosophy";
             JStr "examples";
             JStr "introduction" ]);
       ("keyTakeaways", JList
           [ JStr "Persistence asks 'what prevents things from continuing' rather than 'why does order emerge'";
             JStr "Stable configurations naturally outlast unstable ones";
             JStr "The universe edits instability rather than constructs complexity";
             JStr "The persistence principle appears in everyday phenomena" ]) ]);
    ("chapter-2",
     [ ("chapterNumber", JInt 2);
       ("partNumber", JInt 1);
       ("estimatedReadingTime", JInt 30);
       ("tags", JList
           [ JStr "physics";
             JStr "quantum mechanics";
             JStr "metaphor";
             JStr "critical analysis" ]);
       ("keyTakeaways", JList
           [ JStr "Real interference requires Hilbert space, superposition, and phase coherence";
             JStr "Most metaphorical uses of 'interference' lack mathematical rigor";
             JStr "Brain waves are legitimate waves; market 'interference' is just competition" ]);
       ("references", JList
           [ JDict
             [ ("id", JStr "feynman-2006");
               ("number", JInt 1);
               ("text",
                 JStr "Feynman, R. P. (2006). QED: The Strange Theory of Light and Matter. Princeton University Press.") ] ]) ]);
    ("chapter-3",
     [ ("chapterNumber", JInt 3);
       ("partNumber", JInt 2);
       ("estimatedReadingTime", JInt 35);
       ("tags", JList
           [ JStr "theory";
             JStr "axioms";
             JStr "principles";
             JStr "analogies" ]);
       ("keyTakeaways", JList
           [ JStr "Conservation laws ensure substrate persistence";
             JStr "Differential persistence: stable things last longer";
             JStr "Persistence is a passive property, not an active force" ]) ]);
    ("chapter-4",
     [ ("chapterNumber", JInt 4);
       ("partNumber", JInt 2);
       ("estimatedReadingTime", JInt 30);
       ("tags", JList
           [ JStr "worldview";
             JStr "philosophy";
             JStr "comparison";
             JStr "paradigm shift" ]);
       ("keyTakeaways", JList
           [ JStr "Construction view asks 'why does order emerge?'";
             JStr "Persistence view asks 'what prevents continuation?'";
             JStr "Similar to Copernican and Darwinian revolutions" ]) ]);
    ("chapter-5",
     [ ("chapterNumber", JInt 5);
       ("partNumber", JInt 3);
       ("estimatedReadingTime", JInt 35);
       ("tags", JList
           [ JStr "AI";
             JStr "deep learning";
             JStr "neural networks";
             JStr "machine learning" ]);
       ("keyTakeaways", JList
           [ JStr "Loss landscapes have large connected basins (mode connectivity)";
             JStr "Training doesn't construct solutions, it finds persistent states";
             JStr "AI safety is about attractor engineering" ]);
       ("references", JList
           [ JDict
             [ ("id", JStr "garipov-2018");
               ("number", JInt 1);
               ("text",
                 JStr "Garipov, T., et al. (2018). Loss surfaces, mode connectivity, and fast ensembling of DNNs.") ];
             JDict
             [ ("id", JStr "li-2018");
               ("number", JInt 2);
               ("text",
                 JStr "Li, H., et al. (2018). Visualizing the Loss Landscape of Neural Nets.") ] ]) ]);
    ("chapter-6",
     [ ("chapterNumber", JInt 6);
       ("partNumber", JInt 3);
       ("estimatedReadingTime", JInt 25);
       ("tags", JList
           [ JStr "evolution";
             JStr "biology";
             JStr "LTEE";
             JStr "natural selection" ]);
       ("keyTakeaways", JList
           [ JStr "Evolution is persistence in action: stable forms survive";
             JStr "LTEE shows power-law fitness improvements";
             JStr "Life origin: What stops self-sustaining reactions from continuing?" ]);
       ("references", JList
           [ JDict
             [ ("id", JStr "lenski-2023");
               ("number", JInt 1);
               ("text",
                 JStr "Lenski, R. E. (2023). The E. coli Long-Term Evolution Experiment.") ] ]) ]);
    ("chapter-7",
     [ ("chapterNumber", JInt 7);
       ("partNumber", JInt 3);
       ("estimatedReadingTime", JInt 25);
       ("tags", JList
           [ JStr "cosmology";
             JStr "physics";
             JStr "anthropic principle";
             JStr "dark matter" ]);
       ("keyTakeaways", JList
           [ JStr "Anthropic principle is survivor bias on cosmic scale";
             JStr "Fine-tuning problem dissolves: we observe persistent configurations";
             JStr "Simpler models (classical dark matter) likely more persistent" ]);
       ("references", JList
           [ JDict
             [ ("id", JStr "hui-2021");
               ("number", JInt 1);
               ("text",
                 JStr "Hui, L. (2021). Wave Dark Matter. Annual Review of Astronomy and Astrophysics.") ] ]) ]);
    ("chapter-8",
     [ ("chapterNumber", JInt 8);
       ("partNumber", JInt 4);
       ("estimatedReadingTime", JInt 30);
       ("tags", JList
           [ JStr "critique";
             JStr "physics envy";
             JStr "pseudoscience";
             JStr "methodology" ]);
       ("keyTakeaways", JList
           [ JStr "Physics envy: inappropriate importation of physics concepts";
             JStr "Quantum mind fails: brain too warm and wet for quantum effects";
             JStr "Economic 'quantum' models lack predictive power" ]) ]);
    ("chapter-9",
     [ ("chapterNumber", JInt 9);
       ("partNumber", JInt 4);
       ("estimatedReadingTime", JInt 40);
       ("tags", JList
           [ JStr "FAQ";
             JStr "objections";
             JStr "defense";
             JStr "philosophy of science" ]);
       ("keyTakeaways", JList
           [ JStr "Semantics matter: words guide research programs";
             JStr "Persistence unifies attractor dynamics, SOC, natural selection";
             JStr "Conservation laws may be more fundamental than Schrödinger equation" ]) ]);
    ("chapter-10",
     [ ("chapterNumber", JInt 10);
       ("partNumber", JInt 5);
       ("estimatedReadingTime", JInt 25);
       ("tags", JList
           [ JStr "toolkit";
             JStr "practical";
             JStr "application";
             JStr "methodology" ]);
       ("keyTakeaways", JList
           [ JStr "Identify what persists, transformation operators, attractors";
             JStr "To change a state: make it less persistent or create deeper attractor";
             JStr "Avoid confusing persistence with desirability" ]);
       ("exercises", JList
           [ JDict
             [ ("id", JStr "persistence-worksheet");
               ("type", JStr "worksheet");
               ("title", JStr "Persistence Analysis Worksheet");
               ("difficulty", JStr "orange");
               ("description",
                 JStr "Apply the persistence framework to analyze a system") ] ]) ]);
    ("chapter-11",
     [ ("chapterNumber", JInt 11);
       ("partNumber", JInt 5);
       ("estimatedReadingTime", JInt 20);
       ("tags",
         JList [JStr "resources"; JStr "bibliography"; JStr "further reading"]);
       ("keyTakeaways", JList
           [ JStr "Key resources: Gleick's Chaos, Kauffman's At Home in the Universe";
             JStr "Interactive tools: PhET simulations, 3Blue1Brown videos";
             JStr "Santa Fe Institute: leading center for complexity science" ]) ]);
    ("appendices",
     [ ("estimatedReadingTime", JInt 30);
       ("tags", JList [JStr "technical"; JStr "mathematics"; JStr "advanced"]);
       ("type", JStr "appendix") ]);
    ("bibliography",
     [ ("estimatedReadingTime", JInt 20);
       ("tags", JList [JStr "references"; JStr "citations"; JStr "resources"]);
       ("type", JStr "bibliography") ]) ].

(** ** The envelope (lines 201-230) *)

(** The dict literal [enhanced].  Its ["sections"] slot starts as the empty
    list and is filled by the [append] of line 269; [sections] is the content
    of that list. *)
Definition enhanced_document (title : json) (sections : list json) : dict :=
  [ ("title", title);
    ("version", JStr "1.0");
    ("metadata", JDict
        [ ("authors", JList
              [ JDict
                [ ("name", JStr "Manus AI");
                  ("role", JStr "Author") ] ]);
          ("created", JStr "2025-11-18T00:00:00Z");
          ("lastModified", JStr "2025-11-18T00:00:00Z");
          ("keywords", JList
              [ JStr "persistence";
                JStr "complexity science";
                JStr "interference";
                JStr "evolution";
                JStr "artificial intelligence";
                JStr "cosmology";
                JStr "philosophy of science";
                JStr "differential stability";
                JStr "attractor dynamics";
                JStr "emergent systems" ]);
          ("description",
            JStr "A fundamental reframing of how we understand order in the universe, proposing that stable configurations persist rather than being actively constructed through emergence.");
          ("language", JStr "en");
          ("subject", JList
              [ JStr "Physics";
                JStr "Biology";
                JStr "Computer Science";
                JStr "Philosophy" ]) ]);
    ("settings", JDict
        [ ("theme", JStr "light");
          ("fontSize", JStr "medium");
          ("showDifficulty", JBool true);
          ("showEstimatedTime", JBool true);
          ("enableNavigation", JBool true);
          ("enableSearch", JBool true) ]);
    ("sections", JList sections) ].

(** ** The section loop (lines 233-269) *)

(** [if k in meta: enhanced_section[k] = meta[k]] *)
Definition copy_field (k : string) (meta enhanced_section : dict) : dict :=
  match dict_get k meta with
  | Some v => dict_set k v enhanced_section
  | None => enhanced_section
  end.

(** [enhanced_section["metadata"][k] = v].  The right-hand side [v] is
    already evaluated; the target object is fetched and then assigned into.
    The object is the one the section holds under ["metadata"], so the store
    shows up in the section at the position the key already has.  [dict]
    copies one level only, so the same object also hangs under the input
    section; [json.load] shares no object between two places and the input
    is not read again, so nothing else sees the store. *)
Definition set_nested_metadata (k : string) (v : json) (enhanced_section : dict)
  : result dict :=
  let* target := dict_getitem "metadata" enhanced_section in
  let* target' := py_setitem target k v in
  Ok (dict_set "metadata" target' enhanced_section).

(** Lines 241-267: the body of [if section_id in SECTION_METADATA], for the
    entry [meta] and the copy [enhanced_section]. *)
Definition merge_meta (meta enhanced_section : dict) : result dict :=
  let es :=
    match dict_get "chapterNumber" meta with
    | Some n =>
        dict_set "chapterNumber" n
          (dict_set "type" (JStr "chapter") enhanced_section)
    | None => enhanced_section
    end in
  let es := copy_field "partNumber" meta es in
  let es := copy_field "type" meta es in
  let es :=
    if dict_mem "metadata" es then es
    else dict_set "metadata" (JDict []) es in
  let* reading_time := dict_getitem "estimatedReadingTime" meta in
  let* es := set_nested_metadata "estimatedReadingTime" reading_time es in
  let* tags := dict_getitem "tags" meta in
  let* es := set_nested_metadata "tags" tags es in
  let es := copy_field "keyTakeaways" meta es in
  let es := copy_field "references" meta es in
  let es := copy_field "exercises" meta es in
  Ok es.

(** One iteration of the loop, up to the value that is appended. *)
Definition enhance_section (section : json) : result json :=
  let* copied := copy_and_id section in
  let* found := py_in_table (snd copied) SECTION_METADATA in
  match found with
  | Some meta =>
      let* es := merge_meta meta (fst copied) in Ok (JDict es)
  | None => Ok (JDict (fst copied))
  end.

(** The loop itself: [appended] is the content of [enhanced["sections"]] so
    far, and every iteration appends to it. *)
Fixpoint process_sections (sections appended : list json) : result (list json) :=
  match sections with
  | [] => Ok appended
  | section :: rest =>
      let* enhanced_section := enhance_section section in
      process_sections rest (appended ++ [enhanced_section])
  end.

(** Lines 201-269: from the loaded [article] to the dict that is dumped.
    [article["title"]] is evaluated while the envelope is built, before the
    loop looks at [article["sections"]]. *)
Definition enhance (article : json) : result json :=
  let* title := py_getitem article "title" in
  let* sections := py_getitem article "sections" in
  let* items := py_iter sections in
  let* appended := process_sections items [] in
  Ok (JDict (enhanced_document title appended)).

(** ** The script as a whole (lines 9-10 and 272-278) *)

(** The keyword arguments of [json.dump]. *)
Record dump_options : Type := { indent : option nat; ensure_ascii : bool }.

(** What the run can observe and change: the files and standard output. *)
Record world : Type := { files : gmap string string; stdout : list string }.

(** What the run takes from outside the script.  [json_load] is the text of
    a file read, decoded and parsed by [json.load].  [json_iterencode] gives
    the pieces [json.dump] hands to [f.write], one call per piece, for its
    keyword arguments.  [can_write] says whether [open(path, 'w')] succeeds.
    [file_encodes] and [stdout_encodes] say whether the text layer of the
    file and of standard output can encode a string in their encoding. *)
Record runtime : Type := {
  json_load : string -> result json;
  json_iterencode : dump_options -> json -> list string;
  can_write : string -> bool;
  file_encodes : string -> bool;
  stdout_encodes : string -> bool
}.

(** A statement of the script: it may change the world, and ends normally
    with a value or with an exception.  The world an exception leaves behind
    is the one reached when it was raised. *)
Definition io (A : Type) : Type := world -> world * result A.

Definition io_ret {A : Type} (a : A) : io A := fun w => (w, Ok a).

Definition io_lift {A : Type} (r : result A) : io A := fun w => (w, r).

Definition io_bind {A B : Type} (m : io A) (f : A -> io B) : io B :=
  fun w =>
    match m w with
    | (w', Ok a) => f a w'
    | (w', Raise e) => (w', Raise e)
    end.

Notation "'let+' x ':=' m 'in' k" := (io_bind m (fun x => k))
  (at level 10, x name, m at level 100, k at level 200).

(** [with open(path, 'r') as f: f.read()] *)
Definition open_read (path : string) : io string :=
  fun w =>
    match files w !! path with
    | Some text => (w, Ok text)
    | None => (w, Raise OSError)
    end.

(** [open(path, 'w')]: the file is created or cut to length zero. *)
Definition open_write (rt : runtime) (path : string) : io unit :=
  fun w =>
    if can_write rt path
    then ({| files := <[path := ""]> (files w); stdout := stdout w |}, Ok tt)
    else (w, Raise OSError).

(** [f.write(chunk)]: the chunk is encoded as a whole and then added to the
    file, or nothing of it is.  What was written before stays: leaving the
    [with] block closes the file, also on an exception. *)
Definition file_write (rt : runtime) (path chunk : string) : io unit :=
  fun w =>
    if file_encodes rt chunk
    then ({| files :=
               <[path := String.append (default "" (files w !! path)) chunk]>
                 (files w);
             stdout := stdout w |}, Ok tt)
    else (w, Raise UnicodeEncodeError).

Fixpoint write_chunks (rt : runtime) (path : string) (chunks : list string)
  : io unit :=
  match chunks with
  | [] => io_ret tt
  | chunk :: rest =>
      let+ _ := file_write rt path chunk in write_chunks rt path rest
  end.

(** [json.dump(v, f, **o)] for the file [f] open on [path]. *)
Definition json_dump (rt : runtime) (o : dump_options) (v : json) (path : string)
  : io unit :=
  write_chunks rt path (json_iterencode rt o v).

(** [print(line)]: the line is encoded and added to standard output, or
    nothing of it is. *)
Definition print (rt : runtime) (line : string) : io unit :=
  fun w =>
    if stdout_encodes rt line
    then ({| files := files w; stdout := stdout w ++ [line] |}, Ok tt)
    else (w, Raise UnicodeEncodeError).

(** [len(enhanced['sections'])] *)
Definition sections_len (enhanced : json) : nat :=
  match enhanced with
  | JDict d =>
      match dict_get "sections" d with
      | Some (JList l) => length l
      | _ => 0
      end
  | _ => 0
  end.

Definition str_of_nat (n : nat) : string :=
  NilEmpty.string_of_uint (Nat.to_uint n).

Definition main (rt : runtime) : io unit :=
  let+ text := open_read "article.json" in
  let+ article := io_lift (json_load rt text) in
  let+ enhanced := io_lift (enhance article) in
  let+ _ := open_write rt "article.json" in
  let+ _ :=
    json_dump rt {| indent := Some 2; ensure_ascii := false |} enhanced
      "article.json" in
  let+ _ := print rt "✓ Enhanced article.json created" in
  let+ _ := print rt "✓ Added metadata, version, settings" in
  let+ _ :=
    print rt ("✓ Enhanced " ++ str_of_nat (sections_len enhanced) ++ " sections") in
  print rt "✓ Added reading times, tags, key takeaways, references".

(** A run ends normally or is aborted by an exception; either way the
    world is the one the statements executed so far have made. *)
Definition run (rt : runtime) (w : world) : world * option exn :=
  match main rt w with
  | (w', Ok _) => (w', None)
  | (w', Raise e) => (w', Some e)
  end.

(** What a file holds after it was cut to length zero and the chunks were
    written to it one after the other. *)
Definition written (chunks : list string) : string :=
  fold_left String.append chunks "".

(** ** Closed forms used in the proofs *)

(** The section after lines 242-248. *)
Definition chapter_part_type (meta enhanced_section : dict) : dict :=
  copy_field "type" meta
    (copy_field "partNumber" meta
       match dict_get "chapterNumber" meta with
       | Some n =>
           dict_set "chapterNumber" n
             (dict_set "type" (JStr "chapter") enhanced_section)
       | None => enhanced_section
       end).

(** The dict that lines 254-255 store into: the section's own ["metadata"]
    when that is a dict, the fresh [{}] of line 252 when the key is missing,
    and nothing when the key holds a value that takes no item assignment. *)
Definition metadata_target (enhanced_section : dict) : option dict :=
  match dict_get "metadata" enhanced_section with
  | None => Some []
  | Some (JDict md) => Some md
  | Some _ => None
  end.

(** The section at line 269 when the merge went through: [rt] and [tg] are
    the entry's reading time and tags, [md] the dict they are stored into. *)
Definition merged (meta : dict) (rt tg : json) (md enhanced_section : dict) : dict :=
  copy_field "exercises" meta
    (copy_field "references" meta
       (copy_field "keyTakeaways" meta
          (dict_set "metadata"
             (JDict (dict_set "tags" tg (dict_set "estimatedReadingTime" rt md)))
             (chapter_part_type meta enhanced_section)))).

(** ** Vocabulary of the statements *)

(** The keys of the static table. *)
Definition table_keys : list string := map fst SECTION_METADATA.

(** The two fields lines 254-255 read without a membership test. *)
Definition has_reading_time_and_tags (meta : dict) : bool :=
  dict_mem "estimatedReadingTime" meta && dict_mem "tags" meta.

(** An entry with a chapter number and no explicit type, or without a
    chapter number. *)
Definition chapter_without_type (meta : dict) : bool :=
  match dict_get "chapterNumber" meta with
  | Some _ => negb (dict_mem "type" meta)
  | None => true
  end.

(** Values Python can hash, hence look up in a dict: all but lists and
    dicts. *)
Definition hashable (v : json) : bool :=
  match v with
  | JList _ | JDict _ => false
  | _ => true
  end.

(** A section the loop body gets through: a JSON object with a hashable
    ["id"] which, when that id is a key of the table, either has no
    ["metadata"] key or holds a JSON object under it. *)
Definition section_well_formed (section : json) : Prop :=
  exists (d : dict) (section_id : json),
    section = JDict d /\
    dict_get "id" d = Some section_id /\
    hashable section_id = true /\
    (forall k, section_id = JStr k -> In k table_keys ->
       dict_get "metadata" d = None \/
       exists md, dict_get "metadata" d = Some (JDict md)).

(** ** Sample inputs *)

(** A section whose id is a key of the table and that already carries a
    ["metadata"] record and a ["type"]. *)
Definition sample_chapter : dict :=
  [ ("id", JStr "chapter-2");
    ("title", JStr "The Interference Metaphor");
    ("type", JStr "essay");
    ("metadata", JDict [ ("difficulty", JStr "green") ]);
    ("content", JList [ JStr "Waves." ]) ].

(** The entry the table has under ["chapter-2"] (lines 44-59). *)
Definition chapter_2_entry : dict :=
  [ ("chapterNumber", JInt 2);
    ("partNumber", JInt 1);
    ("estimatedReadingTime", JInt 30);
    ("tags",
      JList [ JStr "physics"; JStr "quantum mechanics"; JStr "metaphor";
              JStr "critical analysis" ]);
    ("keyTakeaways",
      JList
        [ JStr "Real interference requires Hilbert space, superposition, and phase coherence";
          JStr "Most metaphorical uses of 'interference' lack mathematical rigor";
          JStr "Brain waves are legitimate waves; market 'interference' is just competition" ]);
    ("references",
      JList
        [ JDict
            [ ("id", JStr "feynman-2006");
              ("number", JInt 1);
              ("text",
                JStr "Feynman, R. P. (2006). QED: The Strange Theory of Light and Matter. Princeton University Press.") ] ]) ].

(** A section whose id is not a key of the table. *)
Definition sample_preface : dict :=
  [ ("id", JStr "preface");
    ("title", JStr "Preface");
    ("content", JList []) ].

(** An article with a top-level field besides the title and the sections. *)
Definition sample_article_fields : dict :=
  [ ("title", JStr "Persistence");
    ("subtitle", JStr "What prevents things from continuing");
    ("sections", JList [ JDict sample_preface; JDict sample_chapter ]) ].

Definition sample_article : json := JDict sample_article_fields.

(** An entry shaped like those of the table that has both a chapter number
    and an explicit type; the table itself has none. *)
Definition sample_entry_with_type : dict :=
  [ ("chapterNumber", JInt 0);
    ("estimatedReadingTime", JInt 3);
    ("tags", JList [ JStr "prologue" ]);
    ("type", JStr "prologue") ].

(** A document with a title, a sections list and an id on its only section,
    whose section is matched in the table and holds a string under
    ["metadata"]. *)
Definition sample_article_string_metadata : dict :=
  [ ("title", JStr "Persistence");
    ("sections",
      JList
        [ JDict [ ("id", JStr "glossary"); ("metadata", JStr "draft") ] ]) ].

(** The same, with a list as the id of its only section. *)
Definition sample_article_list_id : dict :=
  [ ("title", JStr "Persistence");
    ("sections", JList [ JDict [ ("id", JList [ JInt 1 ]) ] ]) ].

(** A world with an [article.json] and one more file, and a runtime whose
    parser knows one text, whose serialiser answers with the options it was
    given around the title of the document, and where every write goes
    through. *)
Definition sample_world : world :=
  {| files := <["article.json" := "{...}"]> (<["notes.txt" := "keep"]> ∅);
     stdout := [] |}.

Definition sample_load (text : string) : result json :=
  if String.eqb text "{...}" then Ok sample_article else Raise TypeOrValueError.

Definition sample_iterencode (o : dump_options) (v : json) : list string :=
  [ match indent o, ensure_ascii o with
    | Some 2, false => "indent=2, ensure_ascii=False: "
    | _, _ => "other options: "
    end;
    match v with
    | JDict d =>
        match dict_get "title" d with
        | Some (JStr title) => title
        | _ => "?"
        end
    | _ => "?"
    end ].

Definition sample_runtime : runtime :=
  {| json_load := sample_load;
     json_iterencode := sample_iterencode;
     can_write := fun _ => true;
     file_encodes := fun _ => true;
     stdout_encodes := fun _ => true |}.

(** The same runtime with a file encoding that cannot encode the chunk
    holding the title, and an ASCII-only standard output. *)
Definition sample_runtime_strict : runtime :=
  {| json_load := sample_load;
     json_iterencode := sample_iterencode;
     can_write := fun _ => true;
     file_encodes := fun chunk => negb (String.eqb chunk "Persistence");
     stdout_encodes := fun line =>
       forallb (fun c => match c with Ascii.Ascii _ _ _ _ _ _ _ high => negb high end)
         (list_ascii_of_string line) |}.


(** The keys lines 243-267 can store under, in the order of their first
    store. *)
Definition merged_keys : list string :=
  [ "type"; "chapterNumber"; "partNumber"; "metadata";
    "keyTakeaways"; "references"; "exercises" ].

(** The keys of a dict, in insertion order: [list(d)]. *)
Definition dict_keys (d : dict) : list string := map fst d.

(** A document the transform gets through: a JSON object with a ["title"]
    and, under ["sections"], something a [for] loop can visit whose items
    are all well-formed sections. *)
Definition document_well_formed (article : json) : Prop :=
  exists (d : dict) (title sections : json) (items : list json),
    article = JDict d /\
    dict_get "title" d = Some title /\
    dict_get "sections" d = Some sections /\
    py_iter sections = Ok items /\
    Forall section_well_formed items.

(** The four lines a successful run prints for [n] sections. *)
Definition report (n : nat) : list string :=
  [ "✓ Enhanced article.json created";
    "✓ Added metadata, version, settings";
    "✓ Enhanced " ++ str_of_nat n ++ " sections";
    "✓ Added reading times, tags, key takeaways, references" ].

(** The lines that reach standard output when [lines] are printed one
    after the other: those before the first one it cannot encode. *)
Fixpoint printed (rt : runtime) (lines : list string) : list string :=
  match lines with
  | [] => []
  | line :: rest =>
      if stdout_encodes rt line then line :: printed rt rest else []
  end.

(** A section matched by an entry that has neither a chapter number nor a
    type, carrying a ["type"] and ["exercises"] of its own. *)
Definition sample_guide : dict :=
  [ ("id", JStr "reading-guide");
    ("type", JStr "guide");
    ("exercises", JList [ JStr "Skim the summaries." ]) ].

(** A sections list whose second item has no ["id"] and whose third is not
    even an object. *)
Definition sample_article_broken_sections : dict :=
  [ ("title", JStr "Persistence");
    ("sections", JList [ JDict sample_preface; JDict []; JInt 5 ]) ].

(** * Properties *)

(** ** The error monad *)

Lemma bind_ok {A B : Type} (r : result A) (f : A -> result B) (b : B) :
  bind r f = Ok b -> exists a, r = Ok a /\ f a = Ok b.
Proof. destruct r as [a|e]; simpl; intros H; [eauto | discriminate]. Qed.

Lemma bind_raise {A B : Type} (r : result A) (f : A -> result B) (e : exn) :
  bind r f = Raise e -> r = Raise e \/ exists a, r = Ok a /\ f a = Raise e.
Proof. destruct r as [a|e']; simpl; intros H; [eauto | left; congruence]. Qed.

(** ** Dicts: what a store does to the lookups *)

Section DictFacts.

Implicit Types (k : string) (v : json) (d : dict).

Lemma dict_get_set_eq k v d : dict_get k (dict_set k v d) = Some v.
Proof.
  induction d as [|[k' v'] d IH]; simpl.
  - now rewrite String.eqb_refl.
  - destruct (String.eqb k k') eqn:E; simpl; rewrite E; [reflexivity | exact IH].
Qed.

Lemma dict_get_set_ne k k' v d :
  String.eqb k k' = false -> dict_get k' (dict_set k v d) = dict_get k' d.
Proof.
  intros Hne. induction d as [|[k0 v0] d IH]; simpl.
  - rewrite String.eqb_sym, Hne. reflexivity.
  - destruct (String.eqb k k0) eqn:E; simpl.
    + apply String.eqb_eq in E. subst k0.
      rewrite String.eqb_sym, Hne. reflexivity.
    + destruct (String.eqb k' k0); [reflexivity | exact IH].
Qed.

(** Storing the value a key already has changes nothing, not even the
    order of the keys. *)
Lemma dict_set_id k v d : dict_get k d = Some v -> dict_set k v d = d.
Proof.
  induction d as [|[k' v'] d IH]; simpl; [discriminate|].
  destruct (String.eqb k k') eqn:E; intros H.
  - congruence.
  - now rewrite IH.
Qed.

(** A second store to the same key overrides the first and lands in the
    same place. *)
Lemma dict_set_set k v w d : dict_set k v (dict_set k w d) = dict_set k v d.
Proof.
  induction d as [|[k' v'] d IH]; simpl.
  - now rewrite String.eqb_refl.
  - destruct (String.eqb k k') eqn:E; simpl; rewrite E; [reflexivity|].
    now rewrite IH.
Qed.

Lemma dict_mem_set k k' v d :
  dict_mem k' d = true -> dict_mem k' (dict_set k v d) = true.
Proof.
  unfold dict_mem. destruct (String.eqb k k') eqn:E.
  - apply String.eqb_eq in E. subst k'. now rewrite dict_get_set_eq.
  - now rewrite dict_get_set_ne.
Qed.

Lemma dict_mem_get k d : dict_mem k d = true <-> exists v, dict_get k d = Some v.
Proof.
  unfold dict_mem. destruct (dict_get k d) as [v|]; split; intros H; eauto.
  - discriminate.
  - destruct H as [v H]. discriminate.
Qed.

Lemma dict_get_copy_field_eq k meta d :
  dict_get k (copy_field k meta d) =
  match dict_get k meta with Some v => Some v | None => dict_get k d end.
Proof.
  unfold copy_field. destruct (dict_get k meta); [apply dict_get_set_eq | reflexivity].
Qed.

Lemma dict_get_copy_field_ne k k' meta d :
  String.eqb k k' = false -> dict_get k' (copy_field k meta d) = dict_get k' d.
Proof.
  intros Hne. unfold copy_field.
  destruct (dict_get k meta); [now apply dict_get_set_ne | reflexivity].
Qed.

Lemma copy_field_id k meta d :
  (forall v, dict_get k meta = Some v -> dict_get k d = Some v) ->
  copy_field k meta d = d.
Proof.
  intros H. unfold copy_field. destruct (dict_get k meta) as [v|]; [|reflexivity].
  apply dict_set_id, H. reflexivity.
Qed.

Lemma dict_mem_copy_field k k' meta d :
  dict_mem k' d = true -> dict_mem k' (copy_field k meta d) = true.
Proof.
  unfold copy_field. destruct (dict_get k meta); [apply dict_mem_set | trivial].
Qed.

End DictFacts.

Lemma dict_mem_keys (k : string) (d : dict) :
  dict_mem k d = true <-> In k (dict_keys d).
Proof.
  unfold dict_mem, dict_keys. induction d as [|[k' v'] d IH]; simpl.
  - split; [discriminate | tauto].
  - destruct (String.eqb_spec k k') as [->|Hne].
    + split; auto.
    + rewrite IH. split; [auto | intros [Heq|Hin]; [congruence | exact Hin]].
Qed.

(** ** The merge in closed form *)

Lemma chapter_part_type_metadata meta es :
  dict_get "metadata" (chapter_part_type meta es) = dict_get "metadata" es.
Proof.
  unfold chapter_part_type.
  rewrite !dict_get_copy_field_ne by reflexivity.
  destruct (dict_get "chapterNumber" meta); [|reflexivity].
  now rewrite !dict_get_set_ne by reflexivity.
Qed.

Lemma set_nested_metadata_dict k v es md :
  dict_get "metadata" es = Some (JDict md) ->
  set_nested_metadata k v es =
  Ok (dict_set "metadata" (JDict (dict_set k v md)) es).
Proof.
  intros H. unfold set_nested_metadata, dict_getitem. now rewrite H.
Qed.

Lemma set_nested_metadata_not_dict k v es old :
  dict_get "metadata" es = Some old ->
  (forall md, old <> JDict md) ->
  set_nested_metadata k v es = Raise TypeOrValueError.
Proof.
  intros H Hold. unfold set_nested_metadata, dict_getitem. rewrite H.
  destruct old; try reflexivity. now destruct (Hold d).
Qed.

(** [merge_meta] raises exactly where one of the two unconditional lookups
    misses or the section's ["metadata"] is not a dict, and otherwise
    returns [merged]. *)
Lemma merge_meta_spec meta es :
  merge_meta meta es =
  match dict_get "estimatedReadingTime" meta with
  | None => Raise (KeyError "estimatedReadingTime")
  | Some rt =>
      match metadata_target es with
      | None => Raise TypeOrValueError
      | Some md =>
          match dict_get "tags" meta with
          | None => Raise (KeyError "tags")
          | Some tg => Ok (merged meta rt tg md es)
          end
      end
  end.
Proof.
  unfold merge_meta, merged, metadata_target.
  fold (chapter_part_type meta es).
  pose proof (chapter_part_type_metadata meta es) as Hmd.
  set (es1 := chapter_part_type meta es) in *.
  unfold dict_getitem at 1.
  destruct (dict_get "estimatedReadingTime" meta) as [rt|]; [|reflexivity].
  cbn [bind]. unfold dict_mem. rewrite Hmd.
  destruct (dict_get "metadata" es) as [old|].
  - destruct old as [| | | | |l|md];
      try (rewrite (set_nested_metadata_not_dict _ _ _ _ Hmd) by discriminate;
           reflexivity).
    rewrite (set_nested_metadata_dict _ _ _ _ Hmd). simpl bind.
    unfold dict_getitem.
    destruct (dict_get "tags" meta) as [tg|]; [|reflexivity].
    simpl bind.
    rewrite (set_nested_metadata_dict _ _ _ _ (dict_get_set_eq _ _ _)).
    simpl bind. now rewrite dict_set_set.
  - rewrite (set_nested_metadata_dict _ _ _ _ (dict_get_set_eq _ _ _)).
    simpl bind. unfold dict_getitem.
    destruct (dict_get "tags" meta) as [tg|]; [|reflexivity].
    simpl bind.
    rewrite (set_nested_metadata_dict _ _ _ _ (dict_get_set_eq _ _ _)).
    simpl bind. now rewrite !dict_set_set.
Qed.

(** ** Lookups in the merged section *)

(** Pushes a lookup through the stores made to other keys. *)
Ltac dict_simpl :=
  repeat first
    [ rewrite dict_get_set_eq
    | rewrite dict_get_copy_field_eq
    | rewrite dict_get_set_ne by reflexivity
    | rewrite dict_get_copy_field_ne by reflexivity ].

Section MergedFacts.

Variables (meta : dict) (rt tg : json) (md es : dict).

Lemma chapter_part_type_type :
  dict_get "type" (chapter_part_type meta es) =
  match dict_get "type" meta with
  | Some t => Some t
  | None =>
      match dict_get "chapterNumber" meta with
      | Some _ => Some (JStr "chapter")
      | None => dict_get "type" es
      end
  end.
Proof.
  unfold chapter_part_type. dict_simpl.
  destruct (dict_get "type" meta); [reflexivity|].
  destruct (dict_get "chapterNumber" meta); now dict_simpl.
Qed.

Lemma chapter_part_type_chapterNumber :
  dict_get "chapterNumber" (chapter_part_type meta es) =
  match dict_get "chapterNumber" meta with
  | Some n => Some n
  | None => dict_get "chapterNumber" es
  end.
Proof.
  unfold chapter_part_type. dict_simpl.
  destruct (dict_get "chapterNumber" meta); now dict_simpl.
Qed.

Lemma chapter_part_type_partNumber :
  dict_get "partNumber" (chapter_part_type meta es) =
  match dict_get "partNumber" meta with
  | Some n => Some n
  | None => dict_get "partNumber" es
  end.
Proof.
  unfold chapter_part_type. dict_simpl.
  destruct (dict_get "partNumber" meta); [reflexivity|].
  destruct (dict_get "chapterNumber" meta); now dict_simpl.
Qed.

Lemma chapter_part_type_mem k :
  dict_mem k es = true -> dict_mem k (chapter_part_type meta es) = true.
Proof.
  intros H. unfold chapter_part_type.
  do 2 apply dict_mem_copy_field.
  destruct (dict_get "chapterNumber" meta); [|exact H].
  now do 2 apply dict_mem_set.
Qed.

Lemma merged_metadata :
  dict_get "metadata" (merged meta rt tg md es) =
  Some (JDict (dict_set "tags" tg (dict_set "estimatedReadingTime" rt md))).
Proof. unfold merged. now dict_simpl. Qed.

Lemma merged_id :
  dict_get "id" (merged meta rt tg md es) = dict_get "id" es.
Proof.
  unfold merged, chapter_part_type. dict_simpl.
  destruct (dict_get "chapterNumber" meta); now dict_simpl.
Qed.

Lemma merged_type :
  dict_get "type" (merged meta rt tg md es) =
  dict_get "type" (chapter_part_type meta es).
Proof. unfold merged. now dict_simpl. Qed.

Lemma merged_chapterNumber :
  dict_get "chapterNumber" (merged meta rt tg md es) =
  dict_get "chapterNumber" (chapter_part_type meta es).
Proof. unfold merged. now dict_simpl. Qed.

Lemma merged_partNumber :
  dict_get "partNumber" (merged meta rt tg md es) =
  dict_get "partNumber" (chapter_part_type meta es).
Proof. unfold merged. now dict_simpl. Qed.

(** Each field the entry has is on the merged section with the entry's
    value. *)
Lemma merged_field k v :
  In k ["chapterNumber"; "partNumber"; "keyTakeaways"; "references"; "exercises"] ->
  dict_get k meta = Some v ->
  dict_get k (merged meta rt tg md es) = Some v.
Proof.
  intros Hk Hv. simpl in Hk.
  destruct Hk as [<-|[<-|[<-|[<-|[<-|[]]]]]].
  - now rewrite merged_chapterNumber, chapter_part_type_chapterNumber, Hv.
  - now rewrite merged_partNumber, chapter_part_type_partNumber, Hv.
  - unfold merged. dict_simpl. now rewrite Hv.
  - unfold merged. dict_simpl. now rewrite Hv.
  - unfold merged. dict_simpl. now rewrite Hv.
Qed.

Lemma merged_mem k :
  dict_mem k es = true -> dict_mem k (merged meta rt tg md es) = true.
Proof.
  intros H. unfold merged.
  do 3 apply dict_mem_copy_field.
  now apply dict_mem_set, chapter_part_type_mem.
Qed.

End MergedFacts.

(** ** The table *)

Lemma table_complete :
  forallb (fun entry => has_reading_time_and_tags (snd entry)) SECTION_METADATA = true.
Proof. vm_compute. reflexivity. Qed.

Lemma table_chapters_untyped :
  forallb (fun entry => chapter_without_type (snd entry)) SECTION_METADATA = true.
Proof. vm_compute. reflexivity. Qed.

Lemma table_keys_distinct : NoDup table_keys.
Proof. apply (bool_decide_unpack _). vm_compute. reflexivity. Qed.

Lemma find_by_key {V : Type} (table : list (string * V)) (k : string) (v : V) :
  NoDup (map fst table) ->
  In (k, v) table ->
  find (fun kv => String.eqb k (fst kv)) table = Some (k, v).
Proof.
  induction table as [|[k0 v0] table IH]; simpl; [tauto|].
  intros Hnodup [Heq|Hin].
  - injection Heq as -> ->. now rewrite String.eqb_refl.
  - apply NoDup_cons in Hnodup. destruct Hnodup as [Hfresh Hnodup].
    destruct (String.eqb_spec k k0) as [->|Hne].
    + exfalso. apply Hfresh. apply list_elem_of_In.
      change k0 with (fst (k0, v)). now apply in_map.
    + now apply IH.
Qed.

Lemma py_in_table_entry (k : string) (meta : dict) :
  In (k, meta) SECTION_METADATA ->
  py_in_table (JStr k) SECTION_METADATA = Ok (Some meta).
Proof.
  intros Hin. unfold py_in_table.
  now rewrite (find_by_key _ k meta table_keys_distinct Hin).
Qed.

Lemma py_in_table_some (section_id : json) (meta : dict) :
  py_in_table section_id SECTION_METADATA = Ok (Some meta) ->
  exists k, section_id = JStr k /\ In (k, meta) SECTION_METADATA.
Proof.
  unfold py_in_table. destruct section_id as [| | | |s| |]; try discriminate.
  intros H. exists s. split; [reflexivity|].
  destruct (find (fun kv => String.eqb s (fst kv)) SECTION_METADATA)
    as [[k m]|] eqn:Hfind; [|discriminate].
  apply find_some in Hfind. destruct Hfind as [Hin Heq].
  apply String.eqb_eq in Heq. simpl in Heq, H. subst k.
  now replace meta with m by congruence.
Qed.

Lemma py_in_table_str (k : string) :
  In k table_keys ->
  exists meta, py_in_table (JStr k) SECTION_METADATA = Ok (Some meta).
Proof.
  unfold table_keys, py_in_table. generalize SECTION_METADATA as table.
  induction table as [|[k0 m0] table IH]; simpl; [tauto|].
  intros [->|Hin].
  - rewrite String.eqb_refl. eauto.
  - destruct (String.eqb k k0); eauto.
Qed.

Lemma py_in_table_none (k : string) :
  ~ In k table_keys -> py_in_table (JStr k) SECTION_METADATA = Ok None.
Proof.
  unfold table_keys, py_in_table. generalize SECTION_METADATA as table.
  induction table as [|[k0 m0] table IH]; simpl; [reflexivity|].
  intros Hnot. destruct (String.eqb_spec k k0) as [->|Hne]; [tauto|].
  apply IH. tauto.
Qed.

Lemma py_in_table_hashable {V : Type} (section_id : json) (table : list (string * V)) :
  hashable section_id = true -> exists r, py_in_table section_id table = Ok r.
Proof. destruct section_id; simpl; intros H; try discriminate; eauto. Qed.

(** An entry of the table has a reading time and tags. *)
Lemma table_entry_fields (section_id : json) (meta : dict) :
  py_in_table section_id SECTION_METADATA = Ok (Some meta) ->
  exists rt tg,
    dict_get "estimatedReadingTime" meta = Some rt /\
    dict_get "tags" meta = Some tg.
Proof.
  intros H. apply py_in_table_some in H. destruct H as (k & _ & Hin).
  pose proof table_complete as Hall.
  rewrite forallb_forall in Hall. specialize (Hall _ Hin).
  unfold has_reading_time_and_tags in Hall. simpl in Hall.
  apply andb_prop in Hall. destruct Hall as [H1 H2].
  apply dict_mem_get in H1. apply dict_mem_get in H2.
  destruct H1 as [rt H1]. destruct H2 as [tg H2]. eauto.
Qed.

(** ** Merging twice *)

Section MergeTwice.

Variables (meta : dict) (rt tg : json) (md es : dict).

Let once : dict := merged meta rt tg md es.
Let md1 : dict := dict_set "tags" tg (dict_set "estimatedReadingTime" rt md).

(** The chapter default and the override have nothing left to change:
    whatever the first store to ["type"] does, the last one puts back the
    value the section already carries. *)
Lemma chapter_part_type_merged : chapter_part_type meta once = once.
Proof.
  pose proof (merged_type meta rt tg md es) as Htype.
  rewrite chapter_part_type_type in Htype. fold once in Htype.
  pose proof (fun v => merged_field meta rt tg md es "chapterNumber" v
                (or_introl eq_refl)) as Hcn.
  pose proof (fun v => merged_field meta rt tg md es "partNumber" v
                (or_intror (or_introl eq_refl))) as Hpn.
  fold once in Hcn, Hpn.
  unfold chapter_part_type.
  destruct (dict_get "chapterNumber" meta) as [n|].
  - assert (Hin : dict_set "chapterNumber" n
                    (dict_set "type" (JStr "chapter") once)
                  = dict_set "type" (JStr "chapter") once).
    { apply dict_set_id. rewrite dict_get_set_ne by reflexivity. now apply Hcn. }
    rewrite Hin.
    rewrite (copy_field_id "partNumber").
    2:{ intros v Hv. rewrite dict_get_set_ne by reflexivity. now apply Hpn. }
    unfold copy_field. destruct (dict_get "type" meta) as [t|].
    + rewrite dict_set_set. now apply dict_set_id.
    + now apply dict_set_id.
  - rewrite (copy_field_id "partNumber") by exact Hpn.
    apply copy_field_id. intros t Ht. now rewrite Ht in Htype.
Qed.

Lemma merged_merged : merged meta rt tg md1 once = once.
Proof.
  unfold merged at 1. rewrite chapter_part_type_merged.
  assert (Hmd : dict_set "tags" tg (dict_set "estimatedReadingTime" rt md1) = md1).
  { rewrite (dict_set_id "estimatedReadingTime").
    - apply dict_set_id. unfold md1. apply dict_get_set_eq.
    - unfold md1. rewrite dict_get_set_ne by reflexivity. apply dict_get_set_eq. }
  rewrite Hmd.
  rewrite (dict_set_id "metadata") by apply merged_metadata.
  rewrite (copy_field_id "keyTakeaways"), (copy_field_id "references");
    [ apply copy_field_id | | ];
    intros v Hv; apply merged_field; simpl; auto 6.
Qed.

Lemma merge_meta_merged :
  dict_get "estimatedReadingTime" meta = Some rt ->
  dict_get "tags" meta = Some tg ->
  merge_meta meta once = Ok once.
Proof.
  intros Hrt Htg. rewrite merge_meta_spec, Hrt, Htg.
  unfold metadata_target, once. rewrite merged_metadata.
  fold md1. fold once. now rewrite merged_merged.
Qed.

End MergeTwice.

(** ** One iteration of the loop *)

Lemma enhance_section_dict (d : dict) (section_id : json) :
  dict_get "id" d = Some section_id ->
  enhance_section (JDict d) =
  match py_in_table section_id SECTION_METADATA with
  | Raise e => Raise e
  | Ok None => Ok (JDict d)
  | Ok (Some meta) =>
      match merge_meta meta d with
      | Ok es => Ok (JDict es)
      | Raise e => Raise e
      end
  end.
Proof.
  intros Hid. unfold enhance_section, copy_and_id, dict_getitem.
  rewrite Hid. cbn [bind fst snd].
  destruct (py_in_table section_id SECTION_METADATA) as [[meta|]|e];
    cbn [bind]; reflexivity.
Qed.

Lemma enhance_section_no_id (d : dict) :
  dict_get "id" d = None -> enhance_section (JDict d) = Raise (KeyError "id").
Proof.
  intros Hid. unfold enhance_section, copy_and_id, dict_getitem.
  now rewrite Hid.
Qed.

Lemma enhance_section_not_dict (section : json) :
  (forall d, section <> JDict d) -> enhance_section section = Raise TypeOrValueError.
Proof.
  intros H. destruct section; try reflexivity. now destruct (H d).
Qed.

(** Every way the loop body can end, by the shape of the section. *)
Lemma enhance_section_ok (section out : json) :
  enhance_section section = Ok out ->
  exists d section_id,
    section = JDict d /\ dict_get "id" d = Some section_id /\
    ((py_in_table section_id SECTION_METADATA = Ok None /\ out = JDict d) \/
     (exists meta rt tg md,
        py_in_table section_id SECTION_METADATA = Ok (Some meta) /\
        dict_get "estimatedReadingTime" meta = Some rt /\
        dict_get "tags" meta = Some tg /\
        metadata_target d = Some md /\
        out = JDict (merged meta rt tg md d))).
Proof.
  intros H. destruct section as [| | | | | |d]; try discriminate.
  destruct (dict_get "id" d) as [section_id|] eqn:Hid.
  2:{ rewrite enhance_section_no_id in H by exact Hid. discriminate. }
  exists d, section_id. split; [reflexivity|]. split; [exact Hid|].
  rewrite (enhance_section_dict d section_id Hid) in H.
  destruct (py_in_table section_id SECTION_METADATA) as [[meta|]|e] eqn:Htab;
    [ | left; split; congruence | discriminate ].
  right. rewrite merge_meta_spec in H.
  destruct (dict_get "estimatedReadingTime" meta) as [rt|] eqn:Hrt; [|discriminate].
  destruct (metadata_target d) as [md|] eqn:Hmd; [|discriminate].
  destruct (dict_get "tags" meta) as [tg|] eqn:Htg; [|discriminate].
  exists meta, rt, tg, md. repeat split; congruence.
Qed.

(** The way into the merged section, for a matched one. *)
Lemma enhance_section_matched (d : dict) (section_id : json) (meta md : dict) :
  dict_get "id" d = Some section_id ->
  py_in_table section_id SECTION_METADATA = Ok (Some meta) ->
  metadata_target d = Some md ->
  exists rt tg,
    dict_get "estimatedReadingTime" meta = Some rt /\
    dict_get "tags" meta = Some tg /\
    enhance_section (JDict d) = Ok (JDict (merged meta rt tg md d)).
Proof.
  intros Hid Htab Hmd.
  destruct (table_entry_fields _ _ Htab) as (rt & tg & Hrt & Htg).
  exists rt, tg. split; [exact Hrt|]. split; [exact Htg|].
  rewrite (enhance_section_dict d section_id Hid), Htab.
  now rewrite merge_meta_spec, Hrt, Hmd, Htg.
Qed.

Lemma enhance_section_idempotent (section out : json) :
  enhance_section section = Ok out -> enhance_section out = Ok out.
Proof.
  intros H. apply enhance_section_ok in H.
  destruct H as (d & section_id & -> & Hid & [[Htab ->]|H]).
  - now rewrite (enhance_section_dict d section_id Hid), Htab.
  - destruct H as (meta & rt & tg & md & Htab & Hrt & Htg & Hmd & ->).
    rewrite (enhance_section_dict _ section_id); [|now rewrite merged_id].
    rewrite Htab. now rewrite merge_meta_merged.
Qed.

(** ** The loop *)

Lemma process_sections_ok (items appended outs : list json) :
  process_sections items appended = Ok outs <->
  exists new,
    outs = (appended ++ new)%list /\
    Forall2 (fun section out => enhance_section section = Ok out) items new.
Proof.
  revert appended. induction items as [|section items IH]; intros appended; simpl.
  - split.
    + intros [= <-]. exists []. split; [now rewrite app_nil_r | constructor].
    + intros (new & -> & Hall). inversion Hall. now rewrite app_nil_r.
  - split.
    + intros H. apply bind_ok in H. destruct H as (out & Hout & H).
      apply IH in H. destruct H as (new & -> & Hall).
      exists (out :: new). split; [now rewrite <- app_assoc | now constructor].
    + intros (new & -> & Hall).
      inversion Hall as [|? out ? new' Hout Hall']; subst.
      rewrite Hout. cbn [bind]. apply IH.
      exists new'. split; [now rewrite <- app_assoc | exact Hall'].
Qed.

Lemma process_sections_raise (items appended : list json) :
  Exists (fun section => is_ok (enhance_section section) = false) items ->
  exists e, process_sections items appended = Raise e.
Proof.
  intros H. revert appended.
  induction H as [section items Hbad | section items _ IH]; intros appended; simpl.
  - destruct (enhance_section section) as [out|e]; [discriminate | eauto].
  - destruct (enhance_section section) as [out|e]; cbn [bind]; eauto.
Qed.

(** ** The whole transform *)

Lemma enhance_ok (article out : json) :
  enhance article = Ok out <->
  exists title sections items outs,
    py_getitem article "title" = Ok title /\
    py_getitem article "sections" = Ok sections /\
    py_iter sections = Ok items /\
    Forall2 (fun section o => enhance_section section = Ok o) items outs /\
    out = JDict (enhanced_document title outs).
Proof.
  unfold enhance. split.
  - intros H.
    apply bind_ok in H. destruct H as (title & Htitle & H).
    apply bind_ok in H. destruct H as (sections & Hsections & H).
    apply bind_ok in H. destruct H as (items & Hitems & H).
    apply bind_ok in H. destruct H as (outs & Houts & H).
    apply process_sections_ok in Houts. destruct Houts as (new & -> & Hall).
    rewrite app_nil_l in H.
    exists title, sections, items, new. repeat split; congruence.
  - intros (title & sections & items & outs & Ht & Hs & Hi & Hall & ->).
    rewrite Ht. cbn [bind]. rewrite Hs. cbn [bind]. rewrite Hi. cbn [bind].
    assert (H : process_sections items [] = Ok outs).
    { apply process_sections_ok. now exists outs. }
    now rewrite H.
Qed.

Lemma enhanced_document_title (title : json) (outs : list json) :
  dict_get "title" (enhanced_document title outs) = Some title.
Proof. reflexivity. Qed.

Lemma enhanced_document_sections (title : json) (outs : list json) :
  dict_get "sections" (enhanced_document title outs) = Some (JList outs).
Proof. reflexivity. Qed.

(** On a second pass every section of the output is left as it is. *)
Lemma sections_idempotent (items outs : list json) :
  Forall2 (fun section o => enhance_section section = Ok o) items outs ->
  Forall2 (fun section o => enhance_section section = Ok o) outs outs.
Proof.
  induction 1 as [|section out items outs Hout _ IH]; constructor.
  - now apply enhance_section_idempotent with section.
  - exact IH.
Qed.

(** The loop body is a function: one input list, one output list. *)
Lemma sections_deterministic (items outs outs' : list json) :
  Forall2 (fun section o => enhance_section section = Ok o) items outs ->
  Forall2 (fun section o => enhance_section section = Ok o) items outs' ->
  outs' = outs.
Proof.
  intros H. revert outs'.
  induction H as [|section out items outs Hout _ IH]; intros outs' H';
    inversion H' as [|? out' ? outs'' Hout' H'']; subst.
  - reflexivity.
  - f_equal; [congruence | now apply IH].
Qed.

(** * The claims *)

(** C1: For a section whose id is a key of the table, the output section
    has a nested ["metadata"] record holding exactly the reading time and
    tags of the entry written under that key, and each of [partNumber],
    [keyTakeaways], [references] and [exercises] that entry has is on the
    output section at the entry's value.  There is such an output whenever
    the section has no ["metadata"] or a record under it, and the two values
    are then stored into that record. *)
Theorem C1_matched_section_gets_entry_fields
  (d : dict) (k : string) (meta : dict) :
  dict_get "id" d = Some (JStr k) ->
  In (k, meta) SECTION_METADATA ->
  (forall out,
     enhance_section (JDict d) = Ok out ->
     exists od rt tg md',
       out = JDict od /\
       dict_get "estimatedReadingTime" meta = Some rt /\
       dict_get "tags" meta = Some tg /\
       dict_get "metadata" od = Some (JDict md') /\
       dict_get "estimatedReadingTime" md' = Some rt /\
       dict_get "tags" md' = Some tg /\
       (forall f v,
          In f ["partNumber"; "keyTakeaways"; "references"; "exercises"] ->
          dict_get f meta = Some v -> dict_get f od = Some v)) /\
  (forall md,
     metadata_target d = Some md ->
     exists od rt tg,
       enhance_section (JDict d) = Ok (JDict od) /\
       dict_get "estimatedReadingTime" meta = Some rt /\
       dict_get "tags" meta = Some tg /\
       dict_get "metadata" od =
         Some (JDict (dict_set "tags" tg (dict_set "estimatedReadingTime" rt md)))).
Proof.
  intros Hid Hin.
  pose proof (py_in_table_entry k meta Hin) as Htab. split.
  - intros out Hout. apply enhance_section_ok in Hout.
    destruct Hout as (d' & id' & [= <-] & Hid' & [[Htab' _]|H]).
    { rewrite Hid in Hid'. injection Hid' as <-. congruence. }
    destruct H as (meta' & rt & tg & md & Htab' & Hrt & Htg & Hmd & ->).
    rewrite Hid in Hid'. injection Hid' as <-.
    assert (meta' = meta) as -> by congruence.
    exists (merged meta rt tg md d), rt, tg,
      (dict_set "tags" tg (dict_set "estimatedReadingTime" rt md)).
    repeat split; try assumption.
    + apply merged_metadata.
    + rewrite dict_get_set_ne by reflexivity. apply dict_get_set_eq.
    + apply dict_get_set_eq.
    + intros f v Hf Hv. apply merged_field; [|exact Hv].
      simpl in Hf |- *. tauto.
  - intros md Hmd.
    destruct (enhance_section_matched d (JStr k) meta md Hid Htab Hmd)
      as (rt & tg & Hrt & Htg & Hout).
    exists (merged meta rt tg md d), rt, tg.
    repeat split; try assumption. apply merged_metadata.
Qed.

Lemma C1_witness :
  (dict_get "id" sample_chapter = Some (JStr "chapter-2") /\
   In ("chapter-2", chapter_2_entry) SECTION_METADATA /\
   metadata_target sample_chapter = Some [ ("difficulty", JStr "green") ]) /\
  exists od,
    enhance_section (JDict sample_chapter) = Ok (JDict od) /\
    dict_get "metadata" od =
      Some (JDict
              [ ("difficulty", JStr "green");
                ("estimatedReadingTime", JInt 30);
                ("tags",
                  JList [ JStr "physics"; JStr "quantum mechanics";
                          JStr "metaphor"; JStr "critical analysis" ]) ]) /\
    dict_get "partNumber" od = Some (JInt 1) /\
    dict_get "keyTakeaways" od = dict_get "keyTakeaways" chapter_2_entry /\
    dict_get "references" od = dict_get "references" chapter_2_entry /\
    dict_get "exercises" chapter_2_entry = None.
Proof.
  assert (Hin : In ("chapter-2", chapter_2_entry) SECTION_METADATA).
  { do 5 right. left. reflexivity. }
  split; [split; [reflexivity | split; [exact Hin | reflexivity]]|].
  pose proof (C1_matched_section_gets_entry_fields
                sample_chapter "chapter-2" chapter_2_entry eq_refl Hin)
    as [Hany Hsome].
  destruct (Hsome [ ("difficulty", JStr "green") ] eq_refl)
    as (od & rt & tg & Hout & Hrt & Htg & Hmd).
  injection Hrt as <-. injection Htg as <-.
  destruct (Hany (JDict od) Hout)
    as (od' & rt & tg & md' & [= <-] & _ & _ & _ & _ & _ & Hfields).
  exists od. split; [exact Hout|]. split; [exact Hmd|].
  split; [apply Hfields; [simpl; auto | reflexivity]|].
  split; [apply Hfields; [simpl; auto | reflexivity]|].
  split; [apply Hfields; [simpl; auto | reflexivity] | reflexivity].
Defined.

(** C2: A section whose id is not a key of the table comes out equal to
    the input section, and the loop body does not raise.  The id is the
    string the data model gives a section, or any other hashable value. *)
Theorem C2_unmatched_section_unchanged (d : dict) (section_id : json) :
  dict_get "id" d = Some section_id ->
  hashable section_id = true ->
  (forall k, section_id = JStr k -> ~ In k table_keys) ->
  enhance_section (JDict d) = Ok (JDict d).
Proof.
  intros Hid Hhash Hnot.
  rewrite (enhance_section_dict d section_id Hid).
  destruct section_id as [| | | |k| |]; try reflexivity; try discriminate.
  now rewrite py_in_table_none by (apply Hnot; reflexivity).
Qed.

Lemma C2_witness :
  (dict_get "id" sample_preface = Some (JStr "preface") /\
   hashable (JStr "preface") = true /\
   (forall k, JStr "preface" = JStr k -> ~ In k table_keys)) /\
  enhance_section (JDict sample_preface) = Ok (JDict sample_preface).
Proof.
  assert (Hnot : forall k, JStr "preface" = JStr k -> ~ In k table_keys).
  { intros k [= <-]. vm_compute. intuition discriminate. }
  split.
  - split; [reflexivity | split; [reflexivity | exact Hnot]].
  - exact (C2_unmatched_section_unchanged
             sample_preface (JStr "preface") eq_refl eq_refl Hnot).
Defined.

(** C4: When the entry has a [chapterNumber], the output section's
    ["type"] is ["chapter"], unless the entry also has a ["type"], whose value
    is stored later and is the one left on the section.  First for the merge
    with any entry, then for a section matched in the table; no entry of the
    table as it stands has both fields. *)
Theorem C4_chapter_type_and_override :
  (forall (meta es out : dict) (n : json),
     dict_get "chapterNumber" meta = Some n ->
     merge_meta meta es = Ok out ->
     dict_get "type" out =
     Some match dict_get "type" meta with
          | Some t => t
          | None => JStr "chapter"
          end) /\
  (forall (d : dict) (section_id n out : json) (meta : dict),
     dict_get "id" d = Some section_id ->
     py_in_table section_id SECTION_METADATA = Ok (Some meta) ->
     dict_get "chapterNumber" meta = Some n ->
     enhance_section (JDict d) = Ok out ->
     exists od,
       out = JDict od /\
       dict_get "type" od =
       Some match dict_get "type" meta with
            | Some t => t
            | None => JStr "chapter"
            end) /\
  (forall (section_id n : json) (meta : dict),
     py_in_table section_id SECTION_METADATA = Ok (Some meta) ->
     dict_get "chapterNumber" meta = Some n ->
     dict_get "type" meta = None).
Proof.
  assert (Htype : forall meta rt tg md es n,
    dict_get "chapterNumber" meta = Some n ->
    dict_get "type" (merged meta rt tg md es) =
    Some match dict_get "type" meta with
         | Some t => t
         | None => JStr "chapter"
         end).
  { intros meta rt tg md es n Hn.
    rewrite merged_type, chapter_part_type_type, Hn.
    now destruct (dict_get "type" meta). }
  split; [|split].
  - intros meta es out n Hn Hout. rewrite merge_meta_spec in Hout.
    destruct (dict_get "estimatedReadingTime" meta) as [rt|]; [|discriminate].
    destruct (metadata_target es) as [md|]; [|discriminate].
    destruct (dict_get "tags" meta) as [tg|]; [|discriminate].
    injection Hout as <-. now apply Htype with n.
  - intros d section_id n out meta Hid Htab Hn Hout.
    apply enhance_section_ok in Hout.
    destruct Hout as (d' & id' & [= <-] & Hid' & [[Htab' _]|H]).
    { rewrite Hid in Hid'. injection Hid' as <-. congruence. }
    destruct H as (meta' & rt & tg & md & Htab' & _ & _ & _ & ->).
    rewrite Hid in Hid'. injection Hid' as <-.
    assert (meta' = meta) as -> by congruence.
    eexists. split; [reflexivity | now apply Htype with n].
  - intros section_id n meta Htab Hn.
    apply py_in_table_some in Htab. destruct Htab as (k & _ & Hin).
    pose proof table_chapters_untyped as Hall.
    rewrite forallb_forall in Hall. specialize (Hall _ Hin).
    unfold chapter_without_type, dict_mem in Hall. cbn [snd] in Hall.
    rewrite Hn in Hall. now destruct (dict_get "type" meta).
Qed.

Lemma C4_witness :
  (dict_get "chapterNumber" sample_entry_with_type = Some (JInt 0) /\
   merge_meta sample_entry_with_type sample_chapter
   = Ok (merged sample_entry_with_type (JInt 3) (JList [ JStr "prologue" ])
           [ ("difficulty", JStr "green") ] sample_chapter) /\
   dict_get "type"
     (merged sample_entry_with_type (JInt 3) (JList [ JStr "prologue" ])
        [ ("difficulty", JStr "green") ] sample_chapter)
   = Some (JStr "prologue")) /\
  exists meta out,
    (dict_get "id" sample_chapter = Some (JStr "chapter-2") /\
     py_in_table (JStr "chapter-2") SECTION_METADATA = Ok (Some meta) /\
     dict_get "chapterNumber" meta = Some (JInt 2) /\
     enhance_section (JDict sample_chapter) = Ok out) /\
    (exists od, out = JDict od /\ dict_get "type" od = Some (JStr "chapter")) /\
    dict_get "type" meta = None.
Proof.
  split.
  - split; [reflexivity | split; [reflexivity|]].
    exact (proj1 C4_chapter_type_and_override
             sample_entry_with_type sample_chapter _ (JInt 0) eq_refl eq_refl).
  - eexists. eexists. split.
    + split; [reflexivity|]. split; [reflexivity|].
      split; [reflexivity | vm_compute; reflexivity].
    + split.
      * apply (proj1 (proj2 C4_chapter_type_and_override)
                 sample_chapter (JStr "chapter-2") (JInt 2) _ _
                 eq_refl eq_refl eq_refl).
        vm_compute. reflexivity.
      * exact (proj2 (proj2 C4_chapter_type_and_override)
                 (JStr "chapter-2") (JInt 2) _ eq_refl eq_refl).
Defined.

(** C5: The loop body never removes a key: every key of the input section
    is a key of the output section, matched or not; and when the input
    section has a ["metadata"] record, the output has one whose sub-fields
    other than [estimatedReadingTime] and [tags] are those of the input. *)
Theorem C5_section_keys_and_metadata_kept (section out : json) :
  enhance_section section = Ok out ->
  exists d od,
    section = JDict d /\ out = JDict od /\
    (forall k, dict_mem k d = true -> dict_mem k od = true) /\
    (forall md,
       dict_get "metadata" d = Some (JDict md) ->
       exists md',
         dict_get "metadata" od = Some (JDict md') /\
         forall k, k <> "estimatedReadingTime" -> k <> "tags" ->
                   dict_get k md' = dict_get k md).
Proof.
  intros H. apply enhance_section_ok in H.
  destruct H as (d & section_id & -> & Hid & [[Htab ->]|H]).
  - exists d, d. repeat split; eauto.
  - destruct H as (meta & rt & tg & md0 & Htab & Hrt & Htg & Hmd0 & ->).
    exists d, (merged meta rt tg md0 d). repeat split.
    + intros k. apply merged_mem.
    + intros md Hmd. unfold metadata_target in Hmd0. rewrite Hmd in Hmd0.
      injection Hmd0 as <-.
      eexists. split; [apply merged_metadata|].
      intros k Hrt' Htg'.
      rewrite !dict_get_set_ne; [reflexivity | |];
        apply String.eqb_neq; congruence.
Qed.

Lemma C5_witness :
  exists out,
    enhance_section (JDict sample_chapter) = Ok out /\
    exists d od,
      JDict sample_chapter = JDict d /\ out = JDict od /\
      (forall k, dict_mem k d = true -> dict_mem k od = true) /\
      (forall md,
         dict_get "metadata" d = Some (JDict md) ->
         exists md',
           dict_get "metadata" od = Some (JDict md') /\
           forall k, k <> "estimatedReadingTime" -> k <> "tags" ->
                     dict_get k md' = dict_get k md).
Proof.
  eexists. split.
  - vm_compute. reflexivity.
  - apply (C5_section_keys_and_metadata_kept (JDict sample_chapter)).
    vm_compute. reflexivity.
Defined.

(** C8: Every entry of the table has an ["estimatedReadingTime"] and a
    ["tags"] key, so the two unconditional subscripts of lines 254-255
    succeed on each; the only [KeyError] the loop body can raise is the one
    for a section without ["id"]. *)
Theorem C8_entries_have_reading_time_and_tags :
  Forall
    (fun entry =>
       exists rt tg,
         dict_getitem "estimatedReadingTime" (snd entry) = Ok rt /\
         dict_getitem "tags" (snd entry) = Ok tg)
    SECTION_METADATA /\
  (forall (section : json) (k : string),
     enhance_section section = Raise (KeyError k) -> k = "id").
Proof.
  split.
  - apply Forall_forall. intros entry Hin.
    apply list_elem_of_In in Hin.
    pose proof table_complete as Hall.
    rewrite forallb_forall in Hall. specialize (Hall _ Hin).
    unfold has_reading_time_and_tags in Hall.
    apply andb_prop in Hall. destruct Hall as [H1 H2].
    apply dict_mem_get in H1. apply dict_mem_get in H2.
    destruct H1 as [rt H1]. destruct H2 as [tg H2].
    exists rt, tg. unfold dict_getitem. now rewrite H1, H2.
  - intros section k H.
    destruct section as [| | | | | |d]; try discriminate.
    destruct (dict_get "id" d) as [section_id|] eqn:Hid.
    2:{ rewrite enhance_section_no_id in H by exact Hid. congruence. }
    rewrite (enhance_section_dict d section_id Hid) in H.
    destruct (py_in_table section_id SECTION_METADATA) as [[meta|]|e] eqn:Htab.
    + destruct (table_entry_fields _ _ Htab) as (rt & tg & Hrt & Htg).
      rewrite merge_meta_spec, Hrt, Htg in H.
      destruct (metadata_target d); discriminate.
    + discriminate.
    + destruct section_id; simpl in Htab; congruence.
Qed.

Lemma C8_witness :
  enhance_section (JDict []) = Raise (KeyError "id") /\ "id" = "id".
Proof.
  split; [reflexivity|].
  exact (proj2 C8_entries_have_reading_time_and_tags (JDict []) "id" eq_refl).
Defined.

(** C3: Every output document has the keys [version], [metadata],
    [settings] and [sections]; its sections list is as long as the input's
    sections list, and position [i] of the output holds what the loop body
    made of position [i] of the input. *)
Theorem C3_envelope_keys_and_section_order
  (d : dict) (items : list json) (out : json) :
  dict_get "sections" d = Some (JList items) ->
  enhance (JDict d) = Ok out ->
  exists (od : dict) (outs : list json),
    out = JDict od /\
    dict_mem "version" od = true /\
    dict_mem "metadata" od = true /\
    dict_mem "settings" od = true /\
    dict_get "sections" od = Some (JList outs) /\
    length outs = length items /\
    (forall (i : nat) (section : json),
       items !! i = Some section ->
       exists o, outs !! i = Some o /\ enhance_section section = Ok o).
Proof.
  intros Hsections H. apply enhance_ok in H.
  destruct H as (title & sections & items' & outs & _ & Hs & Hi & Hall & ->).
  unfold py_getitem, dict_getitem in Hs. rewrite Hsections in Hs.
  injection Hs as <-. injection Hi as <-.
  exists (enhanced_document title outs), outs.
  repeat split; try assumption.
  - symmetry. eapply Forall2_length, Hall.
  - intros i section Hlook.
    destruct (Forall2_lookup_l _ _ _ _ _ Hall Hlook) as (o & Ho & Hout). eauto.
Qed.

Lemma C3_witness :
  dict_get "sections" sample_article_fields
  = Some (JList [ JDict sample_preface; JDict sample_chapter ]) /\
  exists (od : dict) (outs : list json),
    enhance (JDict sample_article_fields) = Ok (JDict od) /\
    dict_mem "version" od = true /\
    dict_mem "metadata" od = true /\
    dict_mem "settings" od = true /\
    dict_get "sections" od = Some (JList outs) /\
    length outs = 2 /\
    outs !! 0 = Some (JDict sample_preface) /\
    exists chapter,
      outs !! 1 = Some (JDict chapter) /\
      dict_get "id" chapter = Some (JStr "chapter-2") /\
      dict_get "chapterNumber" chapter = Some (JInt 2).
Proof.
  split; [reflexivity|].
  destruct (enhance (JDict sample_article_fields)) as [out|e] eqn:Hout;
    [|vm_compute in Hout; discriminate].
  destruct (C3_envelope_keys_and_section_order sample_article_fields
              [ JDict sample_preface; JDict sample_chapter ] out eq_refl Hout)
    as (od & outs & -> & Hv & Hm & Hs & Hsec & Hlen & Hpos).
  exists od, outs. repeat (split; [reflexivity || assumption|]).
  destruct (Hpos 0 (JDict sample_preface) eq_refl) as (o0 & Ho0 & He0).
  destruct (Hpos 1 (JDict sample_chapter) eq_refl) as (o1 & Ho1 & He1).
  vm_compute in He0. injection He0 as <-.
  vm_compute in He1. injection He1 as <-.
  split; [exact Ho0|].
  eexists. split; [exact Ho1|]. split; reflexivity.
Defined.

(** C10: The output's ["title"] is the input's, unchanged.  The output has
    the five keys of the envelope and no other, so no further top-level field
    of the input is carried over: two inputs with the same title and the same
    sections give the same output. *)
Theorem C10_title_is_carried_unchanged (d : dict) (title out : json) :
  dict_get "title" d = Some title ->
  enhance (JDict d) = Ok out ->
  exists od : dict,
    out = JDict od /\
    dict_get "title" od = Some title /\
    map fst od = ["title"; "version"; "metadata"; "settings"; "sections"] /\
    (forall k, In k ["version"; "metadata"; "settings"] ->
               dict_get k od = dict_get k (enhanced_document JNull [])) /\
    (forall d' : dict,
       dict_get "title" d' = Some title ->
       dict_get "sections" d' = dict_get "sections" d ->
       enhance (JDict d') = Ok out).
Proof.
  intros Htitle H. apply enhance_ok in H.
  destruct H as (title' & sections & items & outs & Ht & Hs & Hi & Hall & ->).
  unfold py_getitem, dict_getitem in Ht, Hs. rewrite Htitle in Ht.
  injection Ht as <-.
  exists (enhanced_document title outs).
  repeat split; try reflexivity.
  - intros k Hk. simpl in Hk.
    destruct Hk as [<-|[<-|[<-|[]]]]; reflexivity.
  - intros d' Ht' Hs'. apply enhance_ok.
    exists title, sections, items, outs.
    unfold py_getitem, dict_getitem. rewrite Ht', Hs'. auto.
Qed.

Lemma C10_witness :
  dict_get "title" sample_article_fields = Some (JStr "Persistence") /\
  exists od : dict,
    enhance (JDict sample_article_fields) = Ok (JDict od) /\
    dict_get "title" od = Some (JStr "Persistence") /\
    dict_get "subtitle" sample_article_fields
    = Some (JStr "What prevents things from continuing") /\
    dict_get "subtitle" od = None /\
    dict_get "version" od = Some (JStr "1.0").
Proof.
  split; [reflexivity|].
  destruct (enhance (JDict sample_article_fields)) as [out|e] eqn:Hout;
    [|vm_compute in Hout; discriminate].
  destruct (C10_title_is_carried_unchanged sample_article_fields
              (JStr "Persistence") out eq_refl Hout)
    as (od & -> & Ht & Hkeys & Hconst & _).
  exists od. split; [reflexivity|]. split; [exact Ht|]. split; [reflexivity|].
  split.
  - destruct (dict_get "subtitle" od) as [v|] eqn:Hsub; [|reflexivity].
    assert (Hin : In "subtitle" (map fst od)).
    { apply dict_mem_keys. unfold dict_mem. now rewrite Hsub. }
    rewrite Hkeys in Hin. simpl in Hin. intuition discriminate.
  - rewrite Hconst by (simpl; auto). reflexivity.
Defined.

(** C6: As amended: the transform is idempotent on its own output.  When
    a run succeeds, running the transform again on the document it produced
    succeeds and produces that same document: every store of the second pass
    writes the value already there, at the place it already has. *)
Theorem C6_second_run_changes_nothing (article out : json) :
  enhance article = Ok out -> enhance out = Ok out.
Proof.
  intros H. apply enhance_ok in H.
  destruct H as (title & sections & items & outs & _ & _ & _ & Hall & ->).
  apply enhance_ok. exists title, (JList outs), outs, outs.
  repeat split; try reflexivity.
  now apply sections_idempotent with items.
Qed.

Lemma C6_witness :
  exists out,
    enhance sample_article = Ok out /\ enhance out = Ok out.
Proof.
  eexists. split.
  - vm_compute. reflexivity.
  - apply (C6_second_run_changes_nothing sample_article).
    vm_compute. reflexivity.
Defined.

(** C6, as first stated, fails: no article has a successful run whose
    output a second run turns into a different document. *)
Lemma C6_counterexample :
  ~ exists article out out',
      enhance article = Ok out /\ enhance out = Ok out' /\ out' <> out.
Proof.
  intros (article & out & out' & H1 & H2 & Hne).
  apply enhance_ok in H1.
  destruct H1 as (title & sections & items & outs & _ & _ & _ & Hall & ->).
  apply enhance_ok in H2.
  destruct H2 as (title' & sections' & items' & outs' & Ht & Hs & Hi & Hall' & ->).
  injection Ht as <-. injection Hs as <-. injection Hi as <-.
  apply sections_idempotent in Hall. apply Hne. do 2 f_equal.
  now apply sections_deterministic with outs.
Qed.

(** ** Well-formed sections complete *)

Lemma section_well_formed_ok (section : json) :
  section_well_formed section -> exists out, enhance_section section = Ok out.
Proof.
  intros (d & section_id & -> & Hid & Hhash & Hmd).
  destruct (py_in_table_hashable section_id SECTION_METADATA Hhash) as [[meta|] Htab].
  - destruct (py_in_table_some _ _ Htab) as (k & -> & Hin).
    assert (Hk : In k table_keys).
    { unfold table_keys. change k with (fst (k, meta)). now apply in_map. }
    assert (Htarget : exists md, metadata_target d = Some md).
    { unfold metadata_target.
      destruct (Hmd k eq_refl Hk) as [Hnone|[md Hsome]].
      - rewrite Hnone. eauto.
      - rewrite Hsome. eauto. }
    destruct Htarget as [md Htarget].
    destruct (enhance_section_matched d (JStr k) meta md Hid Htab Htarget)
      as (rt & tg & _ & _ & Hout).
    eauto.
  - rewrite (enhance_section_dict d section_id Hid), Htab. eauto.
Qed.

Lemma sections_well_formed_ok (items : list json) :
  Forall section_well_formed items ->
  exists outs, Forall2 (fun section o => enhance_section section = Ok o) items outs.
Proof.
  induction 1 as [|section items Hwf _ [outs IH]].
  - exists []. constructor.
  - destruct (section_well_formed_ok section Hwf) as [out Hout].
    exists (out :: outs). now constructor.
Qed.

(** ** The run *)

Lemma world_eta (w : world) : {| files := files w; stdout := stdout w |} = w.
Proof. now destruct w. Qed.

Lemma write_chunks_ok (rt : runtime) (path : string) (chunks : list string)
  (w : world) (old : string) :
  files w !! path = Some old ->
  forallb (file_encodes rt) chunks = true ->
  write_chunks rt path chunks w =
  ({| files := <[path := fold_left String.append chunks old]> (files w);
      stdout := stdout w |}, Ok tt).
Proof.
  revert w old. induction chunks as [|chunk chunks IH]; intros w old Hold Hall.
  - cbn [write_chunks fold_left]. unfold io_ret.
    rewrite insert_id by exact Hold. now rewrite world_eta.
  - cbn [forallb] in Hall. apply andb_prop in Hall. destruct Hall as [Hc Hall].
    cbn [write_chunks fold_left]. unfold io_bind, file_write.
    rewrite Hc, Hold. cbn [default from_option].
    rewrite (IH _ (String.append old chunk)); [|apply lookup_insert_eq | exact Hall].
    cbn [files stdout]. now rewrite insert_insert_eq.
Qed.

Lemma write_chunks_fails (rt : runtime) (path : string)
  (good : list string) (bad : string) (rest : list string)
  (w : world) (old : string) :
  files w !! path = Some old ->
  forallb (file_encodes rt) good = true ->
  file_encodes rt bad = false ->
  write_chunks rt path (good ++ bad :: rest) w =
  ({| files := <[path := fold_left String.append good old]> (files w);
      stdout := stdout w |}, Raise UnicodeEncodeError).
Proof.
  revert w old. induction good as [|chunk good IH]; intros w old Hold Hall Hbad.
  - cbn [app write_chunks fold_left]. unfold io_bind, file_write.
    rewrite Hbad. rewrite insert_id by exact Hold. now rewrite world_eta.
  - cbn [forallb] in Hall. apply andb_prop in Hall. destruct Hall as [Hc Hall].
    cbn [app write_chunks fold_left]. unfold io_bind, file_write.
    rewrite Hc, Hold. cbn [default from_option].
    rewrite (IH _ (String.append old chunk));
      [|apply lookup_insert_eq | exact Hall | exact Hbad].
    cbn [files stdout]. now rewrite insert_insert_eq.
Qed.




(** Rewrites [main rt w] up to the point where the transform has returned. *)
Ltac main_start Hfile Hload Henh :=
  unfold main, io_bind, open_read, io_lift;
  rewrite Hfile; cbv beta iota;
  rewrite Hload; cbv beta iota;
  rewrite Henh; cbv beta iota.

Section Run.

Variables (rt : runtime) (w : world) (text : string) (article : json).
Hypothesis Hfile : files w !! "article.json" = Some text.
Hypothesis Hload : json_load rt text = Ok article.

Lemma main_enhance_raises (e : exn) :
  enhance article = Raise e -> main rt w = (w, Raise e).
Proof. intros Henh. main_start Hfile Hload Henh. reflexivity. Qed.


Lemma main_dump_fails (enhanced : json)
  (good : list string) (bad : string) (rest : list string) :
  enhance article = Ok enhanced ->
  can_write rt "article.json" = true ->
  json_iterencode rt {| indent := Some 2; ensure_ascii := false |} enhanced
  = (good ++ bad :: rest)%list ->
  forallb (file_encodes rt) good = true ->
  file_encodes rt bad = false ->
  main rt w =
  ({| files := <["article.json" := written good]> (files w);
      stdout := stdout w |}, Raise UnicodeEncodeError).
Proof.
  intros Henh Hcan Hchunks Hgood Hbad. main_start Hfile Hload Henh.
  unfold open_write. rewrite Hcan. cbv beta iota.
  unfold json_dump. rewrite Hchunks.
  rewrite (write_chunks_fails rt _ good bad rest _ "");
    [|apply lookup_insert_eq | exact Hgood | exact Hbad].
  cbn [files stdout]. now rewrite insert_insert_eq.
Qed.

Lemma main_dumped (enhanced : json) :
  enhance article = Ok enhanced ->
  can_write rt "article.json" = true ->
  forallb (file_encodes rt)
    (json_iterencode rt {| indent := Some 2; ensure_ascii := false |} enhanced)
  = true ->
  main rt w =
  ({| files :=
        <["article.json" :=
            written (json_iterencode rt
                       {| indent := Some 2; ensure_ascii := false |} enhanced)]>
          (files w);
      stdout := stdout w ++ printed rt (report (sections_len enhanced)) |},
   if forallb (stdout_encodes rt) (report (sections_len enhanced))
   then Ok tt else Raise UnicodeEncodeError).
Proof.
  intros Henh Hcan Hall. main_start Hfile Hload Henh.
  unfold open_write. rewrite Hcan. cbv beta iota.
  unfold json_dump.
  rewrite (write_chunks_ok rt _ _ _ ""); [|apply lookup_insert_eq | exact Hall].
  cbn [files stdout]. rewrite insert_insert_eq. fold (written
    (json_iterencode rt {| indent := Some 2; ensure_ascii := false |} enhanced)).
  unfold print, report. cbn [printed forallb files stdout].
  repeat match goal with
         | |- context [stdout_encodes rt ?line] =>
             destruct (stdout_encodes rt line); cbn [andb files stdout]
         end;
    rewrite <- ?app_assoc, ?app_nil_r; reflexivity.
Qed.

End Run.

(** C7: The run takes its input from the file [article.json] and nowhere
    else, and writes to that same path, and to no other, the output document
    as [json.dump] serialises it with [indent=2] and [ensure_ascii=False].
    Where the file can be opened for writing and can encode every chunk, it
    ends up holding all of them and every other file is as it was; the run
    can then still be aborted, by a [print] only.  Without the file the run
    is aborted with the files as they were; where a chunk cannot be encoded,
    the run is aborted with the file cut down to the chunks before it. *)
Theorem C7_article_json_read_and_overwritten (rt : runtime) :
  (forall (w : world) (text : string) (article enhanced : json),
     files w !! "article.json" = Some text ->
     json_load rt text = Ok article ->
     enhance article = Ok enhanced ->
     can_write rt "article.json" = true ->
     forallb (file_encodes rt)
       (json_iterencode rt {| indent := Some 2; ensure_ascii := false |} enhanced)
     = true ->
     exists w' r,
       run rt w = (w', r) /\
       files w' =
         <["article.json" :=
             written (json_iterencode rt
                        {| indent := Some 2; ensure_ascii := false |} enhanced)]>
           (files w) /\
       (forall path, path <> "article.json" -> files w' !! path = files w !! path) /\
       (r = None \/ r = Some UnicodeEncodeError)) /\
  (forall w : world,
     files w !! "article.json" = None ->
     run rt w = (w, Some OSError)) /\
  (forall (w : world) (text : string) (article enhanced : json)
          (good : list string) (bad : string) (rest : list string),
     files w !! "article.json" = Some text ->
     json_load rt text = Ok article ->
     enhance article = Ok enhanced ->
     can_write rt "article.json" = true ->
     json_iterencode rt {| indent := Some 2; ensure_ascii := false |} enhanced
     = (good ++ bad :: rest)%list ->
     forallb (file_encodes rt) good = true ->
     file_encodes rt bad = false ->
     run rt w =
     ({| files := <["article.json" := written good]> (files w);
         stdout := stdout w |}, Some UnicodeEncodeError)).
Proof.
  split; [|split].
  - intros w text article enhanced Hfile Hload Henh Hcan Hall.
    unfold run.
    rewrite (main_dumped rt w text article Hfile Hload enhanced Henh Hcan Hall).
    destruct (forallb (stdout_encodes rt) (report (sections_len enhanced)));
      (eexists; eexists; split; [reflexivity|]; cbn [files];
       split; [reflexivity|]; split;
       [intros path Hpath; now apply lookup_insert_ne | auto]).
  - intros w Hfile. unfold run, main, io_bind, open_read. now rewrite Hfile.
  - intros w text article enhanced good bad rest
           Hfile Hload Henh Hcan Hchunks Hgood Hbad.
    unfold run.
    now rewrite (main_dump_fails rt w text article Hfile Hload enhanced
                   good bad rest Henh Hcan Hchunks Hgood Hbad).
Qed.

Lemma C7_witness :
  (files sample_world !! "article.json" = Some "{...}" /\
   json_load sample_runtime "{...}" = Ok sample_article /\
   is_ok (enhance sample_article) = true /\
   can_write sample_runtime "article.json" = true) /\
  (exists w',
     run sample_runtime sample_world = (w', None) /\
     files w' !! "article.json"
     = Some "indent=2, ensure_ascii=False: Persistence" /\
     files w' !! "notes.txt" = Some "keep") /\
  (exists w',
     run sample_runtime_strict sample_world = (w', Some UnicodeEncodeError) /\
     files w' !! "article.json" = Some "indent=2, ensure_ascii=False: " /\
     files w' !! "notes.txt" = Some "keep" /\
     stdout w' = []).
Proof.
  split; [split; [reflexivity | split; [reflexivity | split; reflexivity]]|].
  destruct (enhance sample_article) as [enhanced|e] eqn:Henh;
    [|vm_compute in Henh; discriminate].
  assert (Hchunks : forall rt,
    json_iterencode rt = sample_iterencode ->
    json_iterencode rt {| indent := Some 2; ensure_ascii := false |} enhanced
    = ["indent=2, ensure_ascii=False: "; "Persistence"]).
  { intros rt ->. vm_compute in Henh. injection Henh as <-. reflexivity. }
  split.
  - destruct (proj1 (C7_article_json_read_and_overwritten sample_runtime)
                sample_world "{...}" sample_article enhanced
                eq_refl eq_refl Henh eq_refl)
      as (w' & r & Hrun & Hfiles & Hframe & Hr).
    { rewrite (Hchunks sample_runtime eq_refl). reflexivity. }
    assert (r = None) as ->.
    { unfold run in Hrun.
      rewrite (main_dumped sample_runtime sample_world "{...}" sample_article
                 eq_refl eq_refl enhanced Henh eq_refl) in Hrun.
      - now injection Hrun as _ <-.
      - rewrite (Hchunks sample_runtime eq_refl). reflexivity. }
    exists w'. split; [exact Hrun|]. split.
    + rewrite Hfiles, (Hchunks sample_runtime eq_refl). apply lookup_insert_eq.
    + rewrite Hframe by discriminate. reflexivity.
  - eexists. split.
    + apply (proj2 (proj2 (C7_article_json_read_and_overwritten sample_runtime_strict))
               sample_world "{...}" sample_article enhanced
               ["indent=2, ensure_ascii=False: "] "Persistence" []);
        try reflexivity; [exact Henh|].
      apply (Hchunks sample_runtime_strict eq_refl).
    + cbn [files stdout]. split; [apply lookup_insert_eq|].
      split; [|reflexivity].
      rewrite lookup_insert_ne by discriminate. reflexivity.
Defined.

(** C9, as first stated, fails: these two documents have a title, a
    sections list and an id on every section, and the transform raises on
    both, on the first at the store into a ["metadata"] that is a string, on
    the second at the lookup of an id that is a list. *)
Lemma C9_counterexample :
  (dict_mem "title" sample_article_string_metadata = true /\
   (exists items,
      dict_get "sections" sample_article_string_metadata = Some (JList items) /\
      Forall (fun section =>
                exists d, section = JDict d /\ dict_mem "id" d = true) items) /\
   enhance (JDict sample_article_string_metadata) = Raise TypeOrValueError) /\
  (dict_mem "title" sample_article_list_id = true /\
   (exists items,
      dict_get "sections" sample_article_list_id = Some (JList items) /\
      Forall (fun section =>
                exists d, section = JDict d /\ dict_mem "id" d = true) items) /\
   enhance (JDict sample_article_list_id) = Raise TypeOrValueError).
Proof.
  split; (split; [reflexivity|]); (split; [|reflexivity]);
    eexists; (split; [reflexivity|]);
    repeat constructor; eexists; split; reflexivity.
Qed.

(** C9: As amended.  A document with a title, a list under ["sections"]
    and only well-formed sections (each a JSON object with a hashable id
    and, when its id is a key of the table, no ["metadata"] or a JSON object
    under it) is transformed without an exception.  A document without
    ["title"] or without ["sections"] raises [KeyError] for that key, a
    sections list with an object lacking ["id"] raises, and a run in which
    the transform raises ends with the files and the output as they were. *)
Theorem C9_completion_and_fatal_errors :
  (forall (d : dict) (title : json) (items : list json),
     dict_get "title" d = Some title ->
     dict_get "sections" d = Some (JList items) ->
     Forall section_well_formed items ->
     exists out, enhance (JDict d) = Ok out) /\
  (forall d : dict,
     dict_get "title" d = None ->
     enhance (JDict d) = Raise (KeyError "title")) /\
  (forall (d : dict) (title : json),
     dict_get "title" d = Some title ->
     dict_get "sections" d = None ->
     enhance (JDict d) = Raise (KeyError "sections")) /\
  (forall (d : dict) (title : json) (items : list json),
     dict_get "title" d = Some title ->
     dict_get "sections" d = Some (JList items) ->
     Exists (fun section =>
               exists sd, section = JDict sd /\ dict_get "id" sd = None) items ->
     exists e, enhance (JDict d) = Raise e) /\
  (forall (rt : runtime) (w : world) (text : string) (article : json) (e : exn),
     files w !! "article.json" = Some text ->
     json_load rt text = Ok article ->
     enhance article = Raise e ->
     run rt w = (w, Some e)).
Proof.
  repeat split.
  - intros d title items Ht Hs Hwf.
    destruct (sections_well_formed_ok items Hwf) as [outs Hall].
    exists (JDict (enhanced_document title outs)). apply enhance_ok.
    exists title, (JList items), items, outs.
    unfold py_getitem, dict_getitem. rewrite Ht, Hs. repeat split. exact Hall.
  - intros d Ht. unfold enhance, py_getitem, dict_getitem. now rewrite Ht.
  - intros d title Ht Hs. unfold enhance, py_getitem, dict_getitem.
    now rewrite Ht, Hs.
  - intros d title items Ht Hs Hbad.
    unfold enhance, py_getitem, dict_getitem. rewrite Ht, Hs. cbn [bind py_iter].
    destruct (process_sections_raise items []) as [e He].
    + eapply Exists_impl; [exact Hbad|].
      intros section (sd & -> & Hid). now rewrite enhance_section_no_id.
    + exists e. now rewrite He.
  - intros rt w text article e Hfile Hload Henh.
    unfold run. now rewrite (main_enhance_raises rt w text article Hfile Hload e Henh).
Qed.

Lemma C9_witness :
  (dict_get "title" sample_article_fields = Some (JStr "Persistence") /\
   dict_get "sections" sample_article_fields
   = Some (JList [ JDict sample_preface; JDict sample_chapter ]) /\
   Forall section_well_formed [ JDict sample_preface; JDict sample_chapter ]) /\
  (exists out, enhance (JDict sample_article_fields) = Ok out) /\
  (dict_get "title" [ ("sections", JList []) ] = None /\
   enhance (JDict [ ("sections", JList []) ]) = Raise (KeyError "title")).
Proof.
  assert (Hwf : Forall section_well_formed
                  [ JDict sample_preface; JDict sample_chapter ]).
  { repeat constructor.
    - exists sample_preface, (JStr "preface").
      repeat split; try reflexivity.
      intros k [= <-] Hin. vm_compute in Hin. intuition discriminate.
    - exists sample_chapter, (JStr "chapter-2").
      repeat split; try reflexivity.
      intros k _ _. right. eexists. reflexivity. }
  split; [split; [reflexivity | split; [reflexivity | exact Hwf]]|].
  split.
  - exact (proj1 C9_completion_and_fatal_errors sample_article_fields
             (JStr "Persistence") _ eq_refl eq_refl Hwf).
  - split; [reflexivity|].
    exact (proj1 (proj2 C9_completion_and_fatal_errors)
             [ ("sections", JList []) ] eq_refl).
Defined.


(** * Further properties of the loop body *)

(** ** Keys and their order *)

Lemma dict_set_keys (k : string) (v : json) (d : dict) :
  dict_keys (dict_set k v d) =
  if dict_mem k d then dict_keys d else (dict_keys d ++ [k])%list.
Proof.
  unfold dict_mem, dict_keys. induction d as [|[k' v'] d IH]; simpl.
  - reflexivity.
  - destruct (String.eqb k k'); simpl; [reflexivity|].
    rewrite IH. now destruct (dict_get k d).
Qed.

Lemma dict_set_keys_prefix (k : string) (v : json) (d : dict) :
  dict_keys d `prefix_of` dict_keys (dict_set k v d).
Proof.
  rewrite dict_set_keys. destruct (dict_mem k d); [reflexivity|].
  now apply prefix_app_r.
Qed.

Lemma dict_set_keys_in (k k' : string) (v : json) (d : dict) :
  In k' (dict_keys (dict_set k v d)) -> k' = k \/ In k' (dict_keys d).
Proof.
  rewrite dict_set_keys. destruct (dict_mem k d); [auto|].
  rewrite in_app_iff. simpl. intuition.
Qed.

Lemma copy_field_keys_prefix (k : string) (meta d : dict) :
  dict_keys d `prefix_of` dict_keys (copy_field k meta d).
Proof.
  unfold copy_field. destruct (dict_get k meta);
    [apply dict_set_keys_prefix | reflexivity].
Qed.

Lemma copy_field_keys_in (k k' : string) (meta d : dict) :
  In k' (dict_keys (copy_field k meta d)) -> k' = k \/ In k' (dict_keys d).
Proof.
  unfold copy_field. destruct (dict_get k meta);
    [apply dict_set_keys_in | auto].
Qed.

Lemma chapter_part_type_keys_prefix (meta d : dict) :
  dict_keys d `prefix_of` dict_keys (chapter_part_type meta d).
Proof.
  unfold chapter_part_type.
  etrans; [|apply copy_field_keys_prefix].
  etrans; [|apply copy_field_keys_prefix].
  destruct (dict_get "chapterNumber" meta); [|reflexivity].
  etrans; [|apply dict_set_keys_prefix]. apply dict_set_keys_prefix.
Qed.

Lemma chapter_part_type_keys_in (k : string) (meta d : dict) :
  In k (dict_keys (chapter_part_type meta d)) ->
  In k merged_keys \/ In k (dict_keys d).
Proof.
  unfold chapter_part_type. intros H.
  apply copy_field_keys_in in H. destruct H as [->|H]; [left; simpl; auto|].
  apply copy_field_keys_in in H. destruct H as [->|H]; [left; simpl; auto|].
  destruct (dict_get "chapterNumber" meta); [|auto].
  apply dict_set_keys_in in H. destruct H as [->|H]; [left; simpl; auto|].
  apply dict_set_keys_in in H. destruct H as [->|H]; [left; simpl; auto|auto].
Qed.

Lemma merged_keys_prefix (meta : dict) (rt tg : json) (md d : dict) :
  dict_keys d `prefix_of` dict_keys (merged meta rt tg md d).
Proof.
  unfold merged.
  do 3 (etrans; [|apply copy_field_keys_prefix]).
  etrans; [|apply dict_set_keys_prefix].
  apply chapter_part_type_keys_prefix.
Qed.

Lemma merged_keys_in (k : string) (meta : dict) (rt tg : json) (md d : dict) :
  In k (dict_keys (merged meta rt tg md d)) ->
  In k merged_keys \/ In k (dict_keys d).
Proof.
  unfold merged. intros H.
  do 3 (apply copy_field_keys_in in H;
        destruct H as [->|H]; [left; simpl; auto 8|]).
  apply dict_set_keys_in in H. destruct H as [->|H]; [left; simpl; auto 8|].
  now apply chapter_part_type_keys_in in H.
Qed.

(** A key outside [merged_keys] is looked up in the merged section as in
    the input. *)
Lemma merged_other (k : string) (meta : dict) (rt tg : json) (md d : dict) :
  ~ In k merged_keys ->
  dict_get k (merged meta rt tg md d) = dict_get k d.
Proof.
  intros Hk.
  assert (Hne : forall k', In k' merged_keys -> String.eqb k' k = false).
  { intros k' Hk'. apply String.eqb_neq. intros ->. now apply Hk. }
  unfold merged, chapter_part_type.
  rewrite !dict_get_copy_field_ne by (apply Hne; simpl; auto 8).
  rewrite dict_get_set_ne by (apply Hne; simpl; auto 8).
  rewrite !dict_get_copy_field_ne by (apply Hne; simpl; auto 8).
  destruct (dict_get "chapterNumber" meta); [|reflexivity].
  now rewrite !dict_get_set_ne by (apply Hne; simpl; auto 8).
Qed.

(** A field the entry does not have is looked up in the merged section as
    in the input. *)
Lemma merged_absent_field (k : string) (meta : dict) (rt tg : json) (md d : dict) :
  In k ["chapterNumber"; "partNumber"; "keyTakeaways"; "references"; "exercises"] ->
  dict_get k meta = None ->
  dict_get k (merged meta rt tg md d) = dict_get k d.
Proof.
  intros Hk Hnone. simpl in Hk.
  destruct Hk as [<-|[<-|[<-|[<-|[<-|[]]]]]].
  - now rewrite merged_chapterNumber, chapter_part_type_chapterNumber, Hnone.
  - now rewrite merged_partNumber, chapter_part_type_partNumber, Hnone.
  - unfold merged. dict_simpl. rewrite Hnone. dict_simpl.
    unfold chapter_part_type. dict_simpl.
    destruct (dict_get "chapterNumber" meta); now dict_simpl.
  - unfold merged. dict_simpl. rewrite Hnone. dict_simpl.
    unfold chapter_part_type. dict_simpl.
    destruct (dict_get "chapterNumber" meta); now dict_simpl.
  - unfold merged. dict_simpl. rewrite Hnone. dict_simpl.
    unfold chapter_part_type. dict_simpl.
    destruct (dict_get "chapterNumber" meta); now dict_simpl.
Qed.

Lemma enhance_section_matched_ok (d : dict) (section_id out : json) (meta : dict) :
  dict_get "id" d = Some section_id ->
  py_in_table section_id SECTION_METADATA = Ok (Some meta) ->
  enhance_section (JDict d) = Ok out ->
  exists rt tg md,
    dict_get "estimatedReadingTime" meta = Some rt /\
    dict_get "tags" meta = Some tg /\
    metadata_target d = Some md /\
    out = JDict (merged meta rt tg md d).
Proof.
  intros Hid Htab Hout. apply enhance_section_ok in Hout.
  destruct Hout as (d' & id' & [= <-] & Hid' & [[Htab' _]|H]).
  { rewrite Hid in Hid'. injection Hid' as <-. congruence. }
  destruct H as (meta' & rt & tg & md & Htab' & Hrt & Htg & Hmd & ->).
  rewrite Hid in Hid'. injection Hid' as <-.
  assert (meta' = meta) as -> by congruence.
  exists rt, tg, md. auto.
Qed.

(** X1: Whatever the loop body does to a section, a field whose key is
    none of [type], [chapterNumber], [partNumber], [metadata],
    [keyTakeaways], [references], [exercises] has in the output the value it
    has in the input (or is missing from both). *)
Theorem X1_other_fields_untouched (section out : json) :
  enhance_section section = Ok out ->
  exists d od,
    section = JDict d /\ out = JDict od /\
    forall k, ~ In k merged_keys -> dict_get k od = dict_get k d.
Proof.
  intros H. apply enhance_section_ok in H.
  destruct H as (d & section_id & -> & Hid & [[Htab ->]|H]).
  - exists d, d. auto.
  - destruct H as (meta & rt & tg & md & _ & _ & _ & _ & ->).
    exists d, (merged meta rt tg md d). repeat split.
    intros k Hk. now apply merged_other.
Qed.

Lemma X1_witness :
  exists out,
    enhance_section (JDict sample_chapter) = Ok out /\
    exists d od,
      JDict sample_chapter = JDict d /\ out = JDict od /\
      forall k, ~ In k merged_keys -> dict_get k od = dict_get k d.
Proof.
  eexists. split.
  - vm_compute. reflexivity.
  - apply (X1_other_fields_untouched (JDict sample_chapter)).
    vm_compute. reflexivity.
Defined.

(** X2: The keys of the input section come first in the output section, in
    their input order; the keys after them are among the seven the merge
    stores under.  The same holds one level down: the sub-keys of an input
    ["metadata"] record come first in the output record, followed by nothing
    but [estimatedReadingTime] and [tags]. *)
Theorem X2_key_order_kept (section out : json) :
  enhance_section section = Ok out ->
  exists d od,
    section = JDict d /\ out = JDict od /\
    dict_keys d `prefix_of` dict_keys od /\
    (forall k, In k (dict_keys od) -> In k (dict_keys d) \/ In k merged_keys) /\
    (forall md md',
       dict_get "metadata" d = Some (JDict md) ->
       dict_get "metadata" od = Some (JDict md') ->
       dict_keys md `prefix_of` dict_keys md' /\
       (forall k, In k (dict_keys md') ->
                  In k (dict_keys md) \/ k = "estimatedReadingTime" \/ k = "tags")).
Proof.
  intros H. apply enhance_section_ok in H.
  destruct H as (d & section_id & -> & Hid & [[Htab ->]|H]).
  - exists d, d. repeat split; auto.
    + assert (md' = md) as -> by congruence. reflexivity.
    + assert (md' = md) as -> by congruence. auto.
  - destruct H as (meta & rt & tg & md0 & _ & _ & _ & Hmd0 & ->).
    exists d, (merged meta rt tg md0 d). split; [reflexivity|].
    split; [reflexivity|]. split; [apply merged_keys_prefix|].
    split.
    + intros k Hk. apply merged_keys_in in Hk. tauto.
    + intros md md' Hmd Hmd'. rewrite merged_metadata in Hmd'.
      unfold metadata_target in Hmd0. rewrite Hmd in Hmd0.
      injection Hmd0 as <-. injection Hmd' as <-. split.
      * etrans; apply dict_set_keys_prefix.
      * intros k Hk.
        apply dict_set_keys_in in Hk. destruct Hk as [->|Hk]; [auto|].
        apply dict_set_keys_in in Hk. destruct Hk as [->|Hk]; auto.
Qed.

Lemma X2_witness :
  exists out,
    enhance_section (JDict sample_chapter) = Ok out /\
    exists d od,
      JDict sample_chapter = JDict d /\ out = JDict od /\
      dict_keys d `prefix_of` dict_keys od /\
      (forall k, In k (dict_keys od) -> In k (dict_keys d) \/ In k merged_keys) /\
      (forall md md',
         dict_get "metadata" d = Some (JDict md) ->
         dict_get "metadata" od = Some (JDict md') ->
         dict_keys md `prefix_of` dict_keys md' /\
         (forall k, In k (dict_keys md') ->
                    In k (dict_keys md) \/ k = "estimatedReadingTime" \/ k = "tags")).
Proof.
  eexists. split.
  - vm_compute. reflexivity.
  - apply (X2_key_order_kept (JDict sample_chapter)).
    vm_compute. reflexivity.
Defined.

(** X3: For a section matched in the table, a field among [chapterNumber],
    [partNumber], [keyTakeaways], [references], [exercises] that the entry
    does not have is left as the input has it, and so is ["type"] when the
    entry has neither a chapter number nor a type. *)
Theorem X3_fields_the_entry_lacks_are_kept
  (d : dict) (section_id out : json) (meta : dict) :
  dict_get "id" d = Some section_id ->
  py_in_table section_id SECTION_METADATA = Ok (Some meta) ->
  enhance_section (JDict d) = Ok out ->
  exists od,
    out = JDict od /\
    (forall k,
       In k ["chapterNumber"; "partNumber"; "keyTakeaways"; "references"; "exercises"] ->
       dict_get k meta = None -> dict_get k od = dict_get k d) /\
    (dict_get "chapterNumber" meta = None ->
     dict_get "type" meta = None ->
     dict_get "type" od = dict_get "type" d).
Proof.
  intros Hid Htab Hout.
  destruct (enhance_section_matched_ok d section_id out meta Hid Htab Hout)
    as (rt & tg & md & _ & _ & _ & ->).
  eexists. split; [reflexivity|]. split.
  - intros k Hk Hnone. now apply merged_absent_field.
  - intros Hcn Hty.
    now rewrite merged_type, chapter_part_type_type, Hty, Hcn.
Qed.

Lemma X3_witness :
  exists meta out,
    (dict_get "id" sample_guide = Some (JStr "reading-guide") /\
     py_in_table (JStr "reading-guide") SECTION_METADATA = Ok (Some meta) /\
     enhance_section (JDict sample_guide) = Ok out) /\
    (dict_get "exercises" meta = None /\
     dict_get "chapterNumber" meta = None /\
     dict_get "type" meta = None) /\
    exists od,
      out = JDict od /\
      dict_get "exercises" od = Some (JList [ JStr "Skim the summaries." ]) /\
      dict_get "type" od = Some (JStr "guide").
Proof.
  eexists. eexists. split.
  - split; [reflexivity|]. split; [reflexivity | vm_compute; reflexivity].
  - split; [split; [reflexivity | split; reflexivity]|].
    destruct (X3_fields_the_entry_lacks_are_kept
                sample_guide (JStr "reading-guide") _ _ eq_refl eq_refl eq_refl)
      as (od & Hod & Hfields & Htype).
    exists od. split; [exact Hod|]. split.
    + rewrite (Hfields "exercises"); [reflexivity | simpl; auto 6 | reflexivity].
    + rewrite Htype; reflexivity.
Defined.

(** ** When the loop body and the transform complete *)

Lemma enhance_section_ok_well_formed (section out : json) :
  enhance_section section = Ok out -> section_well_formed section.
Proof.
  intros H. apply enhance_section_ok in H.
  destruct H as (d & section_id & -> & Hid & [[Htab _]|H]).
  - exists d, section_id. repeat split; try assumption.
    + destruct section_id; try reflexivity; discriminate.
    + intros k -> Hk. apply py_in_table_str in Hk.
      destruct Hk as [meta Hk]. congruence.
  - destruct H as (meta & rt & tg & md & Htab & _ & _ & Hmd & _).
    destruct (py_in_table_some _ _ Htab) as (k & -> & _).
    exists d, (JStr k). repeat split; try assumption.
    intros _ _ _. unfold metadata_target in Hmd.
    destruct (dict_get "metadata" d) as [[| | | | | |md']|];
      try discriminate; eauto.
Qed.

(** X4: The loop body completes on a section exactly when the section is a
    JSON object with an ["id"] that is not a list or an object and, if that id
    is a key of the table, with no ["metadata"] or a JSON object under it. *)
Theorem X4_section_completes_iff_well_formed (section : json) :
  (exists out, enhance_section section = Ok out) <-> section_well_formed section.
Proof.
  split.
  - intros [out H]. now apply enhance_section_ok_well_formed with out.
  - apply section_well_formed_ok.
Qed.

Lemma X4_witness :
  section_well_formed (JDict sample_chapter) /\
  ~ section_well_formed
      (JDict [ ("id", JStr "glossary"); ("metadata", JStr "draft") ]).
Proof.
  split.
  - apply (proj1 (X4_section_completes_iff_well_formed (JDict sample_chapter))).
    eexists. vm_compute. reflexivity.
  - intros Hwf.
    apply (proj2 (X4_section_completes_iff_well_formed _)) in Hwf.
    destruct Hwf as [out Hout]. vm_compute in Hout. discriminate.
Defined.

(** X5: The transform completes exactly on a JSON object that has a
    ["title"] and, under ["sections"], something a [for] loop can visit
    whose items are all well-formed sections. *)
Theorem X5_transform_completes_iff_well_formed (article : json) :
  (exists out, enhance article = Ok out) <-> document_well_formed article.
Proof.
  split.
  - intros [out H]. apply enhance_ok in H.
    destruct H as (title & sections & items & outs & Ht & Hs & Hi & Hall & _).
    destruct article as [| | | | | |d]; try discriminate.
    unfold py_getitem, dict_getitem in Ht, Hs.
    destruct (dict_get "title" d) as [title'|] eqn:Ht'; [|discriminate].
    destruct (dict_get "sections" d) as [sections'|] eqn:Hs'; [|discriminate].
    injection Ht as <-. injection Hs as <-.
    exists d, title', sections', items. repeat split; try assumption.
    clear -Hall. induction Hall as [|section o items outs Ho _ IH]; constructor.
    + now apply enhance_section_ok_well_formed with o.
    + exact IH.
  - intros (d & title & sections & items & -> & Ht & Hs & Hi & Hwf).
    destruct (sections_well_formed_ok items Hwf) as [outs Hall].
    exists (JDict (enhanced_document title outs)). apply enhance_ok.
    exists title, sections, items, outs.
    unfold py_getitem, dict_getitem. rewrite Ht, Hs. auto.
Qed.

Lemma X5_witness :
  document_well_formed sample_article /\
  ~ document_well_formed (JDict sample_article_string_metadata).
Proof.
  split.
  - apply (proj1 (X5_transform_completes_iff_well_formed sample_article)).
    eexists. vm_compute. reflexivity.
  - intros Hwf.
    apply (proj2 (X5_transform_completes_iff_well_formed _)) in Hwf.
    destruct Hwf as [out Hout]. vm_compute in Hout. discriminate.
Defined.

(** ** Which exception ends the loop *)

Lemma process_sections_first_failure
  (good : list json) (bad : json) (rest outs appended : list json) (e : exn) :
  Forall2 (fun section o => enhance_section section = Ok o) good outs ->
  enhance_section bad = Raise e ->
  process_sections (good ++ bad :: rest) appended = Raise e.
Proof.
  intros Hgood Hbad. revert appended.
  induction Hgood as [|section o good outs Ho _ IH]; intros appended; simpl.
  - now rewrite Hbad.
  - rewrite Ho. cbn [bind]. apply IH.
Qed.

(** X6: The sections are handled in order and the first one the loop body
    raises on ends the transform with that exception; what follows it in the
    list is not looked at. *)
Theorem X6_first_failing_section_decides
  (d : dict) (title : json) (good : list json) (bad : json)
  (rest outs : list json) (e : exn) :
  dict_get "title" d = Some title ->
  dict_get "sections" d = Some (JList (good ++ bad :: rest)) ->
  Forall2 (fun section o => enhance_section section = Ok o) good outs ->
  enhance_section bad = Raise e ->
  enhance (JDict d) = Raise e.
Proof.
  intros Ht Hs Hgood Hbad.
  unfold enhance, py_getitem, dict_getitem. rewrite Ht, Hs. cbn [bind py_iter].
  now rewrite (process_sections_first_failure good bad rest outs [] e Hgood Hbad).
Qed.

Lemma X6_witness :
  (dict_get "title" sample_article_broken_sections = Some (JStr "Persistence") /\
   dict_get "sections" sample_article_broken_sections
   = Some (JList ([ JDict sample_preface ] ++ JDict [] :: [ JInt 5 ])) /\
   Forall2 (fun section o => enhance_section section = Ok o)
     [ JDict sample_preface ] [ JDict sample_preface ] /\
   enhance_section (JDict []) = Raise (KeyError "id")) /\
  enhance (JDict sample_article_broken_sections) = Raise (KeyError "id").
Proof.
  assert (Hgood : Forall2 (fun section o => enhance_section section = Ok o)
                    [ JDict sample_preface ] [ JDict sample_preface ]).
  { repeat constructor. }
  split.
  - split; [reflexivity|]. split; [reflexivity|]. split; [exact Hgood | reflexivity].
  - exact (X6_first_failing_section_decides
             sample_article_broken_sections (JStr "Persistence")
             [ JDict sample_preface ] (JDict []) [ JInt 5 ]
             [ JDict sample_preface ] (KeyError "id")
             eq_refl eq_refl Hgood eq_refl).
Defined.

(** ** The loop over a concatenation *)

(** X7: Running the loop over two lists one after the other is running it
    over the first and going on over the second from the list appended so
    far, whether or not an exception cuts it short; so two runs that
    complete from the empty list concatenate.  Nothing but the appended
    sections goes from one iteration to the next. *)
Theorem X7_loop_over_concatenation :
  (forall xs ys appended : list json,
     process_sections (xs ++ ys) appended =
     let* middle := process_sections xs appended in process_sections ys middle) /\
  (forall xs ys ox oy : list json,
     process_sections xs [] = Ok ox ->
     process_sections ys [] = Ok oy ->
     process_sections (xs ++ ys) [] = Ok (ox ++ oy)%list).
Proof.
  assert (Happ : forall xs ys appended,
    process_sections (xs ++ ys) appended =
    let* middle := process_sections xs appended in process_sections ys middle).
  { induction xs as [|section xs IH]; intros ys appended; simpl.
    - reflexivity.
    - destruct (enhance_section section) as [out|e]; cbn [bind]; [apply IH | reflexivity]. }
  split; [exact Happ|].
  intros xs ys ox oy Hx Hy. rewrite Happ, Hx. cbn [bind].
  apply process_sections_ok in Hy. destruct Hy as (new & -> & Hall).
  apply process_sections_ok. exists new. now rewrite app_nil_l.
Qed.

Lemma X7_witness :
  (process_sections [ JDict sample_preface ] [] = Ok [ JDict sample_preface ] /\
   is_ok (process_sections [ JDict sample_chapter ] []) = true) /\
  exists oy,
    process_sections [ JDict sample_chapter ] [] = Ok oy /\
    process_sections ([ JDict sample_preface ] ++ [ JDict sample_chapter ]) []
    = Ok ([ JDict sample_preface ] ++ oy)%list.
Proof.
  split; [split; reflexivity|].
  eexists. split.
  - vm_compute. reflexivity.
  - apply (proj2 X7_loop_over_concatenation); [reflexivity|].
    vm_compute. reflexivity.
Defined.

(** ** Sections that are not a list *)

(** X8: When ["sections"] holds something other than a list, the loop
    visits what Python iterates over: nothing for the empty string and the
    empty object, so the output has an empty sections list; characters or
    keys otherwise, each of which fails to be copied as a section; and
    [null], numbers and booleans cannot be iterated at all.  All but the two
    empty cases raise. *)
Theorem X8_sections_that_are_not_a_list (d : dict) (title sections : json) :
  dict_get "title" d = Some title ->
  dict_get "sections" d = Some sections ->
  (forall items, sections <> JList items) ->
  enhance (JDict d) =
  match sections with
  | JStr EmptyString | JDict [] => Ok (JDict (enhanced_document title []))
  | _ => Raise TypeOrValueError
  end.
Proof.
  intros Ht Hs Hnot.
  unfold enhance, py_getitem, dict_getitem. rewrite Ht, Hs. cbn [bind].
  destruct sections as [| | | |s|items|sd]; try reflexivity.
  - destruct s; reflexivity.
  - now destruct (Hnot items).
  - destruct sd as [|[k v] sd]; reflexivity.
Qed.

Lemma X8_witness :
  (dict_get "title" [ ("title", JNull); ("sections", JDict []) ] = Some JNull /\
   dict_get "sections" [ ("title", JNull); ("sections", JDict []) ]
   = Some (JDict []) /\
   (forall items, JDict [] <> JList items)) /\
  enhance (JDict [ ("title", JNull); ("sections", JDict []) ])
  = Ok (JDict (enhanced_document JNull [])) /\
  enhance (JDict [ ("title", JNull); ("sections", JStr "abc") ])
  = Raise TypeOrValueError.
Proof.
  split; [split; [reflexivity | split; [reflexivity | discriminate]]|].
  split.
  - apply (X8_sections_that_are_not_a_list
             [ ("title", JNull); ("sections", JDict []) ] JNull (JDict []));
      [reflexivity | reflexivity | discriminate].
  - apply (X8_sections_that_are_not_a_list
             [ ("title", JNull); ("sections", JStr "abc") ] JNull (JStr "abc"));
      [reflexivity | reflexivity | discriminate].
Defined.

(** ** What a successful run prints *)



(** ** Looking an id up in the table *)

(** X10: The keys of the table are pairwise distinct, and looking an id up
    gives the entry written under that key and no other: a string id is
    matched with [meta] exactly when the pair is in the table, and an id that
    is not a string is never matched. *)
Theorem X10_lookup_finds_the_written_entry :
  NoDup table_keys /\
  (forall (k : string) (meta : dict),
     py_in_table (JStr k) SECTION_METADATA = Ok (Some meta) <->
     In (k, meta) SECTION_METADATA) /\
  (forall (section_id : json) (meta : dict),
     py_in_table section_id SECTION_METADATA = Ok (Some meta) ->
     exists k, section_id = JStr k).
Proof.
  split; [exact table_keys_distinct|]. split.
  - intros k meta. split.
    + intros H. apply py_in_table_some in H.
      destruct H as (k' & [= <-] & Hin). exact Hin.
    + intros Hin. unfold py_in_table.
      now rewrite (find_by_key _ k meta table_keys_distinct Hin).
  - intros section_id meta H. apply py_in_table_some in H.
    destruct H as (k & -> & _). eauto.
Qed.

Lemma X10_witness :
  exists meta,
    py_in_table (JStr "glossary") SECTION_METADATA = Ok (Some meta) /\
    In ("glossary", meta) SECTION_METADATA /\
    dict_get "type" meta = Some (JStr "glossary").
Proof.
  eexists. split; [reflexivity|]. split; [|reflexivity].
  apply (proj1 (proj1 (proj2 X10_lookup_finds_the_written_entry) "glossary" _)).
  reflexivity.
Defined.
